(** * ProMoAI: the LLM repair loop of [promoai/general_utils/llm_connection.py]

    A shallow embedding of [generate_result_with_error_handling], of the two
    transports next to it and of the provider enumeration of
    [ai_providers.py], followed by the properties of the loop.

    Python values are modelled as follows.
    - [str] is [string]; [int] is [Z]; [range n] is the list [0; ...; n-1],
      empty when [n <= 0].
    - A conversation turn, the dict with keys "role" and "content", is the
      record [turn]; the conversation, a Python list shared with the caller
      and mutated in place, is a field of the [state] the call runs in.
    - An exception is its [str()] together with the one fact the loop asks of
      it, [isinstance(e, Exception)].
    - The remote services and the caller's extraction function are functions
      on an abstract world [Env]: they may keep state of their own and answer
      differently at each call.  They get the conversation as an argument
      only and hold no other reference to the caller's list.
    - Every call of a transport and of the extraction function is recorded,
      with its arguments and outcome, in a ghost [trace]. *)

From Stdlib Require Import ZArith QArith List String Ascii Bool Lia DecimalString.
Import ListNotations.
Local Open Scope string_scope.
Local Open Scope Z_scope.
Local Open Scope list_scope.

(** ** Python builtins used by the module *)

Module Py.

(** [str(n)] for an [int]. *)
Definition str_int (n : Z) : string := NilZero.string_of_int (Z.to_int n).

Definition dquote : ascii := ascii_of_nat 34.
Definition squote : ascii := "'"%char.
Definition backslash : ascii := "\"%char.

Fixpoint contains (c : ascii) (s : string) : bool :=
  match s with
  | EmptyString => false
  | String d s' => Ascii.eqb c d || contains c s'
  end.

Definition hex_digit (n : nat) : ascii :=
  match get n "0123456789abcdef" with
  | Some c => c
  | None => "0"%char
  end.

(** One character of [repr(s)], for the quote already chosen.  Bytes from
    128 on belong to the printable non-ASCII text and are kept. *)
Definition repr_char (quote c : ascii) : string :=
  let n := nat_of_ascii c in
  if Ascii.eqb c backslash then String backslash (String backslash "")
  else if Ascii.eqb c quote then String backslash (String quote "")
  else if Nat.eqb n 9 then "\t"
  else if Nat.eqb n 10 then "\n"
  else if Nat.eqb n 13 then "\r"
  else if (Nat.ltb n 32 || Nat.eqb n 127)%bool
       then "\x" ++ String (hex_digit (Nat.div n 16)) (String (hex_digit (Nat.modulo n 16)) "")
  else String c "".

Fixpoint repr_body (quote : ascii) (s : string) : string :=
  match s with
  | EmptyString => ""
  | String c s' => repr_char quote c ++ repr_body quote s'
  end.

(** [repr(s)] for a [str]: single quotes, unless the text has a single
    quote and no double quote. *)
Definition repr_str (s : string) : string :=
  let quote := if (contains squote s && negb (contains dquote s))%bool
               then dquote else squote in
  String quote (repr_body quote s ++ String quote "").

(** [str(l)] for a list of [str]. *)
Definition str_list (l : list string) : string :=
  "[" ++ String.concat ", " (map repr_str l) ++ "]".

(** [range(n)]. *)
Definition range (n : Z) : list Z := map Z.of_nat (seq 0 (Z.to_nat n)).

(** [sub in s]. *)
Fixpoint mentions (sub s : string) : bool :=
  (String.prefix sub s ||
   match s with
   | EmptyString => false
   | String _ s' => mentions sub s'
   end)%bool.

(** The characters of the escapes [\t], [\n] and [\r]. *)
Definition TAB : ascii := ascii_of_nat 9.
Definition LF : ascii := ascii_of_nat 10.
Definition CR : ascii := ascii_of_nat 13.

(** [s.replace(old, new)] for one-character [old] and [new]. *)
Fixpoint replace_char (old new : ascii) (s : string) : string :=
  match s with
  | EmptyString => EmptyString
  | String c s' =>
      String (if Ascii.eqb c old then new else c) (replace_char old new s')
  end.

(** [s.split(sep)] for a one-character [sep]: never an empty list. *)
Fixpoint split (sep : ascii) (s : string) : list string :=
  match s with
  | EmptyString => [EmptyString]
  | String c s' =>
      if Ascii.eqb c sep then EmptyString :: split sep s'
      else match split sep s' with
           | piece :: pieces => String c piece :: pieces
           | [] => [String c EmptyString]
           end
  end.

(** [d[key]] for a dict given as its items in insertion order; [None] is
    [KeyError]. *)
Fixpoint dict_get (key : string) (d : list (string * string)) : option string :=
  match d with
  | [] => None
  | (k, v) :: d' => if String.eqb key k then Some v else dict_get key d'
  end.

(** [list(d.keys())]. *)
Definition dict_keys (d : list (string * string)) : list string := map fst d.

End Py.

(** ** Exceptions and results *)

(** [exn_str e] is [str(e)]; [under_Exception e] is [isinstance(e, Exception)],
    false for [SystemExit], [KeyboardInterrupt] and [GeneratorExit]. *)
Record exn : Type := mk_exn { under_Exception : bool; exn_str : string }.

(** [Exception(msg)]. *)
Definition Exception (msg : string) : exn :=
  {| under_Exception := true; exn_str := msg |}.

(** [IndexError], as raised by [choices[0]] on an empty list. *)
Definition IndexError : exn :=
  {| under_Exception := true; exn_str := "list index out of range" |}.

(** [SystemExit(code)], what [sys.exit] and [exit] raise: a [BaseException]
    that is not an [Exception]. *)
Definition SystemExit (code : string) : exn :=
  {| under_Exception := false; exn_str := code |}.

Inductive res (A : Type) : Type :=
| Return (a : A)
| Raise (e : exn).
Arguments Return {A} a.
Arguments Raise {A} e.

(** ** ai_providers.py *)

Module AIProviders.
Inductive t : Type := OLLAMA | TOGETHER.

Definition value (p : t) : string :=
  match p with
  | OLLAMA => "Ollama"
  | TOGETHER => "Together"
  end.

Definition members : list t := [OLLAMA; TOGETHER].

(** Whether a string is the value of a member of the enumeration. *)
Definition is_value (s : string) : bool :=
  existsb (fun p => String.eqb s (value p)) members.
End AIProviders.

Definition DEFAULT_AI_PROVIDER : string := AIProviders.value AIProviders.OLLAMA.

Definition OLLAMA_MODELS : list (string * string) :=
  [("gemma3:4b", "Google Gemma 4B");
   ("deepseek-r1:latest", "DeepSeek R1");
   ("deepcoder", "DeepCoder")]%string.

Definition TOGETHER_MODELS : list (string * string) :=
  [("meta-llama/Llama-3-70B-Instruct", "Llama 3 (70B)");
   ("mistralai/Mixtral-8x7B-Instruct-v0.1", "Mixtral 8x7B");
   ("togethercomputer/StripedHyena-Nous-7B", "Striped Hyena 7B")]%string.

Definition AI_MODEL_DEFAULTS : list (string * string) :=
  [(AIProviders.value AIProviders.OLLAMA, "gemma3:4b"%string);
   (AIProviders.value AIProviders.TOGETHER,
    "meta-llama/Llama-3-70B-Instruct"%string)].

Definition AI_HELP_DEFAULTS : list (string * string) :=
  [(AIProviders.value AIProviders.OLLAMA,
    "Select an Ollama model that you have pulled locally (no API key required)"%string);
   (AIProviders.value AIProviders.TOGETHER,
    "Select a Together AI model (requires API key from together.ai)"%string)].

(** ** app.py: the model selection of [run_app] *)

(** The options of the model select box for the provider chosen. *)
Definition model_options (ai_provider : string) : list string :=
  if String.eqb ai_provider (AIProviders.value AIProviders.TOGETHER)
  then Py.dict_keys TOGETHER_MODELS
  else Py.dict_keys OLLAMA_MODELS.

(** The [format_func] of the Together select box:
    [f"{x.split('/')[-1]} - {TOGETHER_MODELS[x]}"]; [None] is [KeyError]. *)
Definition together_format_func (x : string) : option string :=
  match Py.dict_get x TOGETHER_MODELS with
  | Some description =>
      Some (List.last (Py.split "/"%char x) EmptyString ++ " - " ++ description)%string
  | None => None
  end.

(** The [format_func] of the Ollama select box: [f"{x} - {OLLAMA_MODELS[x]}"]. *)
Definition ollama_format_func (x : string) : option string :=
  match Py.dict_get x OLLAMA_MODELS with
  | Some description => Some (x ++ " - " ++ description)%string
  | None => None
  end.

(** ** Conversations *)

Record turn : Type := mk_turn { role : string; content : string }.

Definition assistant_turn (response : string) : turn :=
  {| role := "assistant"; content := response |}.

Definition user_turn (message : string) : turn :=
  {| role := "user"; content := message |}.

(** [str(msg)] for a turn, a dict whose keys were inserted in the order
    "role", "content". *)
Definition str_turn (msg : turn) : string :=
  "{'role': " ++ Py.repr_str (role msg) ++ ", 'content': "
  ++ Py.repr_str (content msg) ++ "}".

(** The request of the cloud transport. *)
Record completion_request : Type := mk_completion_request {
  cr_provider : string;
  cr_api_key : string;
  cr_model : string;
  cr_messages : list turn;
  cr_max_tokens : Z;
  cr_temperature : Q
}.

(** The JSON payload of the local transport. *)
Record chat_payload : Type := mk_chat_payload {
  cp_model : string;
  cp_messages : list turn;
  cp_stream : bool
}.

Section Connection.

(** The world outside the module. *)
Variable Env : Type.
(** The type of the artifact an extraction function builds. *)
Variable T : Type.

(** [InferenceClient(provider, api_key).chat.completions.create(...)]: the
    contents of the returned choices, or the exception raised. *)
Variable chat_completions_create :
  completion_request -> Env -> res (list string) * Env.

(** [requests.post(url, json=payload)] followed by [raise_for_status()],
    [json()] and the lookup of ["message"]["content"]: the content, or the
    exception any of these raised. *)
Variable requests_post_content :
  string -> chat_payload -> Env -> res string * Env.

(** [constants.ENABLE_PRINTS]. *)
Variable ENABLE_PRINTS : bool.

(** *** The trace of calls *)

Inductive event : Type :=
| EvTogether (conversation_history : list turn) (api_key model_name : string)
             (outcome : res string)
| EvOllama (conversation_history : list turn) (api_key model_name : string)
           (outcome : res string)
| EvExtract (response : string) (auto_duplicate : bool)
            (outcome : res (string * T)).

Definition is_transport_call (ev : event) : bool :=
  match ev with
  | EvTogether _ _ _ _ | EvOllama _ _ _ _ => true
  | EvExtract _ _ _ => false
  end.

(** The exception a recorded call raised, if it raised one. *)
Definition event_error (ev : event) : option exn :=
  match ev with
  | EvTogether _ _ _ (Raise e) | EvOllama _ _ _ (Raise e) => Some e
  | EvExtract _ _ (Raise e) => Some e
  | _ => None
  end.

Definition is_ollama_call (ev : event) : bool :=
  match ev with
  | EvOllama _ _ _ _ => true
  | _ => false
  end.

(** The number of transport calls recorded. *)
Definition transport_calls (tr : list event) : nat :=
  List.length (filter is_transport_call tr).

(** The calls of the extraction function, in order. *)
Definition extraction_calls (tr : list event)
  : list (string * bool * res (string * T)) :=
  flat_map (fun ev => match ev with
                      | EvExtract response auto_duplicate outcome =>
                          [(response, auto_duplicate, outcome)]
                      | _ => []
                      end) tr.

(** The flag of an extraction call. *)
Definition call_flag (c : string * bool * res (string * T)) : bool :=
  snd (fst c).

(** The events after which the function is left: a transport that raised,
    an extraction that succeeded, an extraction whose exception is not
    caught. *)
Definition ends_loop (ev : event) : bool :=
  match ev with
  | EvTogether _ _ _ (Raise _) | EvOllama _ _ _ (Raise _) => true
  | EvExtract _ _ (Return _) => true
  | EvExtract _ _ (Raise e) => negb (under_Exception e)
  | _ => false
  end.

(** The exceptions of the extraction function that an
    [except Exception] clause catches, in order. *)
Definition caught_failures (tr : list event) : list exn :=
  flat_map (fun ev => match ev with
                      | EvExtract _ _ (Raise e) =>
                          if under_Exception e then [e] else []
                      | _ => []
                      end) tr.

(** *** The state a call runs in *)

Record state : Type := mk_state {
  conversation : list turn;      (* the caller's list object *)
  error_history : list string;   (* the local variable of the loop *)
  world : Env;
  stdout : list string;          (* the lines printed *)
  trace : list event             (* ghost *)
}.

(** The state at the entry of a call: the caller's conversation, the
    world as it is, nothing printed or recorded yet. *)
Definition entry (c : list turn) (w : Env) : state :=
  {| conversation := c; error_history := []; world := w;
     stdout := []; trace := [] |}.

Definition M (A : Type) : Type := state -> res A * state.

Definition ret {A} (a : A) : M A := fun s => (Return a, s).

Definition raise {A} (e : exn) : M A := fun s => (Raise e, s).

Definition bind {A B} (m : M A) (k : A -> M B) : M B :=
  fun s =>
    match m s with
    | (Return a, s1) => k a s1
    | (Raise e, s1) => (Raise e, s1)
    end.

(** [try: body  except Exception as e: handler e]. *)
Definition try_except_Exception {A} (body : M A) (handler : exn -> M A) : M A :=
  fun s =>
    match body s with
    | (Return a, s1) => (Return a, s1)
    | (Raise e, s1) =>
        if under_Exception e then handler e s1 else (Raise e, s1)
    end.

Notation "x <- m ;; k" := (bind m (fun x => k))
  (at level 100, m at next level, right associativity).
Notation "m ;;; k" := (bind m (fun _ => k))
  (at level 100, right associativity).

Definition get_conversation : M (list turn) :=
  fun s => (Return (conversation s), s).

Definition get_error_history : M (list string) :=
  fun s => (Return (error_history s), s).

Definition set_error_history (l : list string) : M unit :=
  fun s => (Return tt,
            {| conversation := conversation s; error_history := l;
               world := world s; stdout := stdout s; trace := trace s |}).

(** [conversation.append(t)]. *)
Definition conversation_append (t : turn) : M unit :=
  fun s => (Return tt,
            {| conversation := conversation s ++ [t];
               error_history := error_history s;
               world := world s; stdout := stdout s; trace := trace s |}).

(** [error_history.append(d)]. *)
Definition error_history_append (d : string) : M unit :=
  fun s => (Return tt,
            {| conversation := conversation s;
               error_history := error_history s ++ [d];
               world := world s; stdout := stdout s; trace := trace s |}).

Definition print (line : string) : M unit :=
  fun s => (Return tt,
            {| conversation := conversation s;
               error_history := error_history s;
               world := world s; stdout := stdout s ++ [line];
               trace := trace s |}).

(** A call into the world. *)
Definition call_world {A} (f : Env -> res A * Env) : M A :=
  fun s =>
    let (r, w) := f (world s) in
    (r, {| conversation := conversation s;
           error_history := error_history s;
           world := w; stdout := stdout s; trace := trace s |}).

(** Runs [m] and records its outcome. *)
Definition traced {A} (ev : res A -> event) (m : M A) : M A :=
  fun s =>
    let (r, s1) := m s in
    (r, {| conversation := conversation s1;
           error_history := error_history s1;
           world := world s1; stdout := stdout s1;
           trace := trace s1 ++ [ev r] |}).

(** *** The transports *)

Definition generate_response_with_history_ollama
    (conversation_history : list turn) (api_key model_name : string) : M string :=
  traced (EvOllama conversation_history api_key model_name)
    (let messages :=
       map (fun message => {| role := role message; content := content message |})
           conversation_history in
     let payload :=
       {| cp_model := model_name; cp_messages := messages; cp_stream := false |} in
     try_except_Exception
       (call_world (requests_post_content "http://localhost:11434/api/chat" payload))
       (fun e => raise (Exception ("Ollama connection failed: " ++ exn_str e)))).

Definition generate_response_with_together
    (conversation_history : list turn) (api_key model_name : string) : M string :=
  traced (EvTogether conversation_history api_key model_name)
    (try_except_Exception
       (let messages :=
          map (fun message => {| role := role message; content := content message |})
              conversation_history in
        choices <- call_world
                     (chat_completions_create
                        {| cr_provider := "together"; cr_api_key := api_key;
                           cr_model := model_name; cr_messages := messages;
                           cr_max_tokens := 4096; cr_temperature := (1 # 10)%Q |}) ;;
        match choices with
        | first :: _ => ret first
        | [] => raise IndexError
        end)
       (fun e => raise (Exception ("Together API connection failed: " ++ exn_str e)))).

(** *** print_conversation *)

(** The line printed for the message at [index]:
    ["\t%d: %s" % (index, str(msg).replace("\n", " ").replace("\r", " "))]. *)
Definition message_line (index : Z) (msg : turn) : string :=
  String Py.TAB (Py.str_int index ++ ": "
                 ++ Py.replace_char Py.CR " " (Py.replace_char Py.LF " " (str_turn msg))).

(** The [for index, msg in enumerate(conversation)] loop, from [index] on. *)
Fixpoint print_messages (index : Z) (messages : list turn) : M unit :=
  match messages with
  | [] => ret tt
  | msg :: rest =>
      print (message_line index msg) ;;;
      print_messages (index + 1) rest
  end.

Definition blank_lines : string := String Py.LF (String Py.LF EmptyString).

Definition print_conversation (messages : list turn) : M unit :=
  if ENABLE_PRINTS
  then (print blank_lines ;;;
        print_messages 0 messages ;;;
        print blank_lines)
  else ret tt.

(** *** The repair loop *)

Section Loop.

Variable extraction_function : string -> bool -> Env -> res (string * T) * Env.
Variables api_key llm_name ai_provider : string.
Variables max_iterations additional_iterations : Z.
Variable standard_error_message : string.

(** What the function returns: [(code, result, conversation)]. *)
Definition answer : Type := (string * T * list turn)%type.

Definition unsupported_provider_error : exn :=
  Exception ("AI provider " ++ ai_provider ++ " is not supported!").

Definition exhaustion_error (history : list string) : exn :=
  Exception (llm_name ++ " failed to fix the errors after "
             ++ Py.str_int (max_iterations + 5)
             ++ " iterations! This is the error history: "
             ++ Py.str_list history).

(** The turn that asks the model to repair [error_description]. *)
Definition new_message (error_description : string) : string :=
  "Executing your code led to an error! " ++ standard_error_message
  ++ " This is the error message: " ++ error_description.

Definition call_extraction (response : string) (auto_duplicate : bool)
  : M (string * T) :=
  traced (EvExtract response auto_duplicate)
         (call_world (extraction_function response auto_duplicate)).

(** One pass through the body of the [for]: [Some] when the function
    returns, [None] when the loop goes on. *)
Definition loop_body (iteration : Z) : M (option answer) :=
  response <-
    (if String.eqb ai_provider (AIProviders.value AIProviders.TOGETHER)
     then (c <- get_conversation ;;
           generate_response_with_together c api_key llm_name)
     else raise unsupported_provider_error) ;;
  try_except_Exception
    (conversation_append (assistant_turn response) ;;;
     let auto_duplicate := iteration >=? max_iterations in
     cr <- call_extraction response auto_duplicate ;;
     c <- get_conversation ;;
     ret (Some (fst cr, snd cr, c)))
    (fun e =>
       let error_description := exn_str e in
       error_history_append error_description ;;;
       (if ENABLE_PRINTS
        then print ("Error detected in iteration " ++ Py.str_int (iteration + 1))
        else ret tt) ;;;
       conversation_append (user_turn (new_message error_description)) ;;;
       ret None).

Fixpoint for_range (iterations : list Z) : M (option answer) :=
  match iterations with
  | [] => ret None
  | iteration :: rest =>
      r <- loop_body iteration ;;
      match r with
      | Some a => ret (Some a)
      | None => for_range rest
      end
  end.

Definition generate_result_with_error_handling : M answer :=
  set_error_history [] ;;;
  r <- for_range (Py.range (max_iterations + additional_iterations)) ;;
  match r with
  | Some a => ret a
  | None =>
      history <- get_error_history ;;
      raise (exhaustion_error history)
  end.

(** *** The loop as a relation

    [body_step i s evs r s']: one pass through the body at iteration [i]
    from state [s] makes the calls [evs], ends in [r] and leaves [s']. *)

Definition supported : bool :=
  String.eqb ai_provider (AIProviders.value AIProviders.TOGETHER).

Definition printed (iteration : Z) (out : list string) : list string :=
  if ENABLE_PRINTS
  then out ++ [("Error detected in iteration " ++ Py.str_int (iteration + 1))%string]
  else out.

Inductive body_step (iteration : Z) (s : state)
  : list event -> res (option answer) -> state -> Prop :=
| step_unsupported :
    supported = false ->
    body_step iteration s [] (Raise unsupported_provider_error) s
| step_transport_raise e s1 :
    supported = true ->
    generate_response_with_together (conversation s) api_key llm_name s
      = (Raise e, s1) ->
    body_step iteration s
      [EvTogether (conversation s) api_key llm_name (Raise e)]
      (Raise e) s1
| step_success response s1 code result w2 :
    supported = true ->
    generate_response_with_together (conversation s) api_key llm_name s
      = (Return response, s1) ->
    extraction_function response (iteration >=? max_iterations) (world s1)
      = (Return (code, result), w2) ->
    body_step iteration s
      [EvTogether (conversation s) api_key llm_name (Return response);
       EvExtract response (iteration >=? max_iterations) (Return (code, result))]
      (Return (Some (code, result, conversation s1 ++ [assistant_turn response])))
      {| conversation := conversation s1 ++ [assistant_turn response];
         error_history := error_history s1;
         world := w2; stdout := stdout s1;
         trace := trace s1 ++ [EvExtract response (iteration >=? max_iterations)
                                         (Return (code, result))] |}
| step_retry response s1 e w2 :
    supported = true ->
    generate_response_with_together (conversation s) api_key llm_name s
      = (Return response, s1) ->
    extraction_function response (iteration >=? max_iterations) (world s1)
      = (Raise e, w2) ->
    under_Exception e = true ->
    body_step iteration s
      [EvTogether (conversation s) api_key llm_name (Return response);
       EvExtract response (iteration >=? max_iterations) (Raise e)]
      (Return None)
      {| conversation := (conversation s1 ++ [assistant_turn response])
                         ++ [user_turn (new_message (exn_str e))];
         error_history := error_history s1 ++ [exn_str e];
         world := w2; stdout := printed iteration (stdout s1);
         trace := trace s1 ++ [EvExtract response (iteration >=? max_iterations)
                                         (Raise e)] |}
| step_escape response s1 e w2 :
    supported = true ->
    generate_response_with_together (conversation s) api_key llm_name s
      = (Return response, s1) ->
    extraction_function response (iteration >=? max_iterations) (world s1)
      = (Raise e, w2) ->
    under_Exception e = false ->
    body_step iteration s
      [EvTogether (conversation s) api_key llm_name (Return response);
       EvExtract response (iteration >=? max_iterations) (Raise e)]
      (Raise e)
      {| conversation := conversation s1 ++ [assistant_turn response];
         error_history := error_history s1;
         world := w2; stdout := stdout s1;
         trace := trace s1 ++ [EvExtract response (iteration >=? max_iterations)
                                         (Raise e)] |}.

(** [loop_run its s evs r s']: the [for] over the iterations [its]. *)
Inductive loop_run
  : list Z -> state -> list event -> res (option answer) -> state -> Prop :=
| run_exhausted s :
    loop_run [] s [] (Return None) s
| run_retry i rest s evs1 s1 evs2 r s2 :
    body_step i s evs1 (Return None) s1 ->
    loop_run rest s1 evs2 r s2 ->
    loop_run (i :: rest) s (evs1 ++ evs2) r s2
| run_return i rest s evs a s1 :
    body_step i s evs (Return (Some a)) s1 ->
    loop_run (i :: rest) s evs (Return (Some a)) s1
| run_raise i rest s evs e s1 :
    body_step i s evs (Raise e) s1 ->
    loop_run (i :: rest) s evs (Raise e) s1.

(** The turns a failed attempt leaves in the conversation. *)
Definition failed_attempt_turns (a : string * string) : list turn :=
  [assistant_turn (fst a); user_turn (new_message (snd a))].

End Loop.

End Connection.

Arguments EvTogether {T} conversation_history api_key model_name outcome.
Arguments EvOllama {T} conversation_history api_key model_name outcome.
Arguments EvExtract {T} response auto_duplicate outcome.
Arguments transport_calls {T} tr.
Arguments is_ollama_call {T} ev.
Arguments event_error {T} ev.
Arguments extraction_calls {T} tr.
Arguments caught_failures {T} tr.
Arguments call_flag {T} c.
Arguments ends_loop {T} ev.
Arguments conversation {Env T} s.
Arguments error_history {Env T} s.
Arguments world {Env T} s.
Arguments stdout {Env T} s.
Arguments trace {Env T} s.
Arguments entry {Env T} c w.
Arguments generate_response_with_history_ollama {Env T}.
Arguments print_messages {Env T}.
Arguments print_conversation {Env T}.
Arguments generate_response_with_together {Env T}.
Arguments loop_body {Env T}.
Arguments for_range {Env T}.
Arguments generate_result_with_error_handling {Env T}.
Arguments body_step {Env T}.
Arguments loop_run {Env T}.


(** ** Concrete worlds

    A world that counts the calls of the extraction function; the cloud
    service always answers with one choice. *)

Module Demo.

Definition service (request : completion_request) (calls : nat)
  : res (list string) * nat :=
  (Return ["reply"%string], calls).

(** Fails on its first [k] calls, then succeeds. *)
Definition fails_first (k : nat) (response : string) (auto_duplicate : bool)
    (calls : nat) : res (string * string) * nat :=
  if Nat.ltb calls k
  then (Raise (Exception "bad code"), S calls)
  else (Return ("code"%string, "model"%string), S calls).

(** Fails at every call, with the number of the call in the description. *)
Definition always_fails (response : string) (auto_duplicate : bool)
    (calls : nat) : res (string * string) * nat :=
  (Raise (Exception ("e" ++ Py.str_int (Z.of_nat calls))), S calls).

(** The generated code calls [exit()]. *)
Definition exits (response : string) (auto_duplicate : bool)
    (calls : nat) : res (string * string) * nat :=
  (Raise (SystemExit "0"), S calls).

(** The cloud service is unreachable once the extraction function has been
    called [k] times. *)
Definition service_down_after (k : nat) (request : completion_request)
    (calls : nat) : res (list string) * nat :=
  if Nat.ltb calls k
  then (Return ["reply"%string], calls)
  else (Raise (Exception "timeout"), calls).

Definition task : list turn := [user_turn "describe the process"].

(** A call of the loop in such a world, prints disabled, model "m". *)
Definition call_with
    (service : completion_request -> nat -> res (list string) * nat)
    (extraction_function : string -> bool -> nat -> res (string * string) * nat)
    (ai_provider : string) (max_iterations additional_iterations : Z)
  : res (answer string) * state nat string :=
  generate_result_with_error_handling service false extraction_function
    "key" "m" ai_provider max_iterations additional_iterations "Fix it."
    (entry task 0%nat).

Definition call := call_with service.

End Demo.

(** ** Properties of the loop *)

Section Properties.

Context {Env T : Type}.
Variable chat_completions_create :
  completion_request -> Env -> res (list string) * Env.
Variable ENABLE_PRINTS : bool.
Variable extraction_function : string -> bool -> Env -> res (string * T) * Env.
Variables api_key llm_name ai_provider : string.
Variables max_iterations additional_iterations : Z.
Variable standard_error_message : string.

Local Abbreviation together :=
  (generate_response_with_together (T := T) chat_completions_create).
Local Abbreviation body :=
  (loop_body chat_completions_create ENABLE_PRINTS extraction_function
             api_key llm_name ai_provider max_iterations standard_error_message).
Local Abbreviation loop :=
  (for_range chat_completions_create ENABLE_PRINTS extraction_function
             api_key llm_name ai_provider max_iterations standard_error_message).
Local Abbreviation step :=
  (body_step chat_completions_create ENABLE_PRINTS extraction_function
             api_key llm_name ai_provider max_iterations standard_error_message).
Local Abbreviation run :=
  (loop_run chat_completions_create ENABLE_PRINTS extraction_function
            api_key llm_name ai_provider max_iterations standard_error_message).
Local Abbreviation call :=
  (generate_result_with_error_handling
     chat_completions_create ENABLE_PRINTS extraction_function
     api_key llm_name ai_provider max_iterations additional_iterations
     standard_error_message).

(** *** The function and the relation agree *)

(** A transport call touches the world and the trace only. *)
Lemma together_frame c k m (s : state Env T) r s1 :
  together c k m s = (r, s1) ->
  conversation s1 = conversation s /\
  error_history s1 = error_history s /\
  stdout s1 = stdout s /\
  trace s1 = trace s ++ [EvTogether c k m r].
Proof.
  unfold generate_response_with_together, traced, try_except_Exception,
    bind, call_world, ret, raise.
  destruct (chat_completions_create _ (world s)) as [[choices | e] w].
  - destruct choices; simpl; intros H; inversion H; subst; simpl; auto.
  - destruct (under_Exception e); simpl; intros H; inversion H; subst;
      simpl; auto.
Qed.

Lemma loop_body_step i s :
  exists evs, step i s evs (fst (body i s)) (snd (body i s)).
Proof.
  unfold loop_body, bind.
  destruct (String.eqb ai_provider (AIProviders.value AIProviders.TOGETHER))
    eqn:Hp.
  - unfold get_conversation.
    destruct (together (conversation s) api_key llm_name s)
      as [[response | e] s1] eqn:Ht.
    + unfold try_except_Exception, bind, conversation_append,
        call_extraction, traced, call_world, get_conversation, ret,
        error_history_append, print.
      simpl.
      destruct (extraction_function response (i >=? max_iterations) (world s1))
        as [[[code result] | e] w2] eqn:Hx; simpl.
      * eexists. eapply step_success; eauto.
      * destruct (under_Exception e) eqn:He.
        -- pose proof (step_retry _ _ chat_completions_create ENABLE_PRINTS
             extraction_function api_key llm_name ai_provider
             max_iterations standard_error_message i s response s1 e w2
             Hp Ht Hx He) as Hs.
           unfold printed in Hs. revert Hs.
           destruct ENABLE_PRINTS; simpl; intros Hs; eexists; exact Hs.
        -- simpl. eexists. eapply step_escape; eauto.
    + simpl. eexists. eapply step_transport_raise; eauto.
  - simpl. eexists. apply step_unsupported. exact Hp.
Qed.

Lemma for_range_run its :
  forall s, exists evs, run its s evs (fst (loop its s)) (snd (loop its s)).
Proof.
  induction its as [| i rest IH]; intros s; simpl.
  - eexists. apply run_exhausted.
  - unfold bind. destruct (loop_body_step i s) as [evs1 Hs].
    destruct (body i s) as [[[a |] | e] s1]; simpl in *.
    + eexists. eapply run_return; eauto.
    + destruct (IH s1) as [evs2 Hr]. eexists. eapply run_retry; eauto.
    + eexists. eapply run_raise; eauto.
Qed.

(** *** What one pass and a whole loop leave behind *)

Lemma transport_calls_app (a b : list (event T)) :
  transport_calls (a ++ b) = (transport_calls a + transport_calls b)%nat.
Proof.
  unfold transport_calls. rewrite filter_app, length_app. reflexivity.
Qed.

Lemma extraction_calls_app (a b : list (event T)) :
  extraction_calls (a ++ b) = extraction_calls a ++ extraction_calls b.
Proof. unfold extraction_calls. apply flat_map_app. Qed.

Lemma caught_failures_app (a b : list (event T)) :
  caught_failures (a ++ b) = caught_failures a ++ caught_failures b.
Proof. unfold caught_failures. apply flat_map_app. Qed.

Ltac frame_together :=
  match goal with
  | H : generate_response_with_together _ _ _ _ _ = (_, _) |- _ =>
      let Hc := fresh "Hconv" in
      let Hh := fresh "Hhist" in
      let Ho := fresh "Hout" in
      let Ht := fresh "Htrace" in
      destruct (together_frame _ _ _ _ _ _ H) as (Hc & Hh & Ho & Ht)
  end.

Ltac rewrite_class :=
  match goal with
  | H : under_Exception _ = _ |- _ => rewrite H
  end.

Ltac step_cases H := inversion H; subst; try frame_together; simpl in *.

Lemma step_trace i s evs r s' :
  step i s evs r s' -> trace s' = trace s ++ evs.
Proof.
  intros H; step_cases H.
  - now rewrite app_nil_r.
  - assumption.
  - rewrite Htrace, <- app_assoc. reflexivity.
  - rewrite Htrace, <- app_assoc. reflexivity.
  - rewrite Htrace, <- app_assoc. reflexivity.
Qed.

Lemma run_trace its s evs r s' :
  run its s evs r s' -> trace s' = trace s ++ evs.
Proof.
  induction 1 as [s | i rest s evs1 s1 evs2 r s2 Hs Hr IH
                  | i rest s evs a s1 Hs | i rest s evs e s1 Hs].
  - now rewrite app_nil_r.
  - rewrite IH, (step_trace _ _ _ _ _ Hs), app_assoc. reflexivity.
  - eapply step_trace; eauto.
  - eapply step_trace; eauto.
Qed.

(** One pass only appends to the conversation. *)
Lemma step_conversation i s evs r s' :
  step i s evs r s' ->
  exists appended, conversation s' = conversation s ++ appended.
Proof.
  intros H; step_cases H.
  - exists []. now rewrite app_nil_r.
  - exists []. now rewrite app_nil_r.
  - eexists. rewrite Hconv. reflexivity.
  - eexists. rewrite Hconv, <- app_assoc. reflexivity.
  - eexists. rewrite Hconv. reflexivity.
Qed.

Lemma run_conversation its s evs r s' :
  run its s evs r s' ->
  exists appended, conversation s' = conversation s ++ appended.
Proof.
  induction 1 as [s | i rest s evs1 s1 evs2 r s2 Hs Hr IH
                  | i rest s evs a s1 Hs | i rest s evs e s1 Hs].
  - exists []. now rewrite app_nil_r.
  - destruct (step_conversation _ _ _ _ _ Hs) as [a1 E1].
    destruct IH as [a2 E2].
    exists (a1 ++ a2). rewrite E2, E1, app_assoc. reflexivity.
  - eapply step_conversation; eauto.
  - eapply step_conversation; eauto.
Qed.

(** Each pass calls a transport at most once. *)
Lemma step_transport_calls i s evs r s' :
  step i s evs r s' -> (transport_calls evs <= 1)%nat.
Proof. intros H; step_cases H; cbv; lia. Qed.

Lemma run_transport_calls its s evs r s' :
  run its s evs r s' -> (transport_calls evs <= List.length its)%nat.
Proof.
  induction 1 as [s | i rest s evs1 s1 evs2 r s2 Hs Hr IH
                  | i rest s evs a s1 Hs | i rest s evs e s1 Hs]; simpl.
  - cbv. lia.
  - rewrite transport_calls_app.
    pose proof (step_transport_calls _ _ _ _ _ Hs). lia.
  - pose proof (step_transport_calls _ _ _ _ _ Hs). lia.
  - pose proof (step_transport_calls _ _ _ _ _ Hs). lia.
Qed.

(** The error history grows by the descriptions of the caught failures. *)
Lemma step_history i s evs r s' :
  step i s evs r s' ->
  error_history s' = error_history s ++ map exn_str (caught_failures evs).
Proof.
  intros H; step_cases H.
  - now rewrite app_nil_r.
  - now rewrite app_nil_r.
  - now rewrite app_nil_r.
  - rewrite_class. rewrite Hhist. reflexivity.
  - rewrite_class. rewrite Hhist. simpl. now rewrite app_nil_r.
Qed.

Lemma run_history its s evs r s' :
  run its s evs r s' ->
  error_history s' = error_history s ++ map exn_str (caught_failures evs).
Proof.
  induction 1 as [s | i rest s evs1 s1 evs2 r s2 Hs Hr IH
                  | i rest s evs a s1 Hs | i rest s evs e s1 Hs].
  - now rewrite app_nil_r.
  - rewrite IH, (step_history _ _ _ _ _ Hs), caught_failures_app, map_app,
      app_assoc. reflexivity.
  - eapply step_history; eauto.
  - eapply step_history; eauto.
Qed.

(** A pass that goes on to the next iteration has caught one failure; a
    pass that ends the loop has caught none. *)
Lemma step_caught i s evs r s' :
  step i s evs r s' ->
  match r with
  | Return None => List.length (caught_failures evs) = 1%nat
  | _ => caught_failures evs = []
  end.
Proof. intros H; step_cases H; try rewrite_class; reflexivity. Qed.

Lemma run_caught_bound its s evs r s' :
  run its s evs r s' ->
  (List.length (caught_failures evs) <= List.length its)%nat /\
  (List.length (caught_failures evs) = List.length its -> r = Return None).
Proof.
  induction 1 as [s | i rest s evs1 s1 evs2 r s2 Hs Hr IH
                  | i rest s evs a s1 Hs | i rest s evs e s1 Hs]; simpl.
  - split; [cbv; lia | reflexivity].
  - pose proof (step_caught _ _ _ _ _ Hs) as H1. simpl in H1.
    rewrite caught_failures_app, length_app, H1.
    destruct IH as [IH1 IH2]. split; [lia |].
    intros E. apply IH2. lia.
  - pose proof (step_caught _ _ _ _ _ Hs) as H1. simpl in H1.
    rewrite H1. simpl. split; [lia | discriminate].
  - pose proof (step_caught _ _ _ _ _ Hs) as H1. simpl in H1.
    rewrite H1. simpl. split; [lia | discriminate].
Qed.

Lemma step_flags i s evs r s' :
  step i s evs r s' ->
  map call_flag (extraction_calls evs) = [] \/
  map call_flag (extraction_calls evs) = [i >=? max_iterations].
Proof. intros H; step_cases H; auto. Qed.

Lemma step_retry_flags i s evs s' :
  step i s evs (Return None) s' ->
  map call_flag (extraction_calls evs) = [i >=? max_iterations].
Proof. intros H; step_cases H; auto. Qed.

(** The extraction calls of a loop carry, in order, the flags of the first
    iterations. *)
Lemma run_flags its s evs r s' :
  run its s evs r s' ->
  map call_flag (extraction_calls evs)
  = map (fun i => i >=? max_iterations)
        (firstn (List.length (extraction_calls evs)) its).
Proof.
  induction 1 as [s | i rest s evs1 s1 evs2 r s2 Hs Hr IH
                  | i rest s evs a s1 Hs | i rest s evs e s1 Hs].
  - reflexivity.
  - pose proof (step_retry_flags _ _ _ _ Hs) as H1.
    rewrite extraction_calls_app, map_app, length_app, H1.
    assert (L : List.length (extraction_calls evs1) = 1%nat)
      by (rewrite <- (length_map call_flag), H1; reflexivity).
    rewrite L. simpl. f_equal. exact IH.
  - destruct (step_flags _ _ _ _ _ Hs) as [H1 | H1]; rewrite H1;
      rewrite <- (length_map call_flag), H1; reflexivity.
  - destruct (step_flags _ _ _ _ _ Hs) as [H1 | H1]; rewrite H1;
      rewrite <- (length_map call_flag), H1; reflexivity.
Qed.

(** *** Where the loop stops *)

Lemma app_split_at {A} (P : A -> Prop) (l1 l2 pre post : list A) (x : A) :
  Forall P l1 -> ~ P x ->
  l1 ++ l2 = pre ++ x :: post ->
  exists pre', pre = l1 ++ pre' /\ l2 = pre' ++ x :: post.
Proof.
  intros HP Hx. revert pre.
  induction HP as [| a l1 Ha HP IH]; intros pre E; simpl in *.
  - exists pre. auto.
  - destruct pre as [| b pre]; simpl in E.
    + injection E as E1 _. subst. contradiction.
    + injection E as E1 E2. subst b.
      destruct (IH pre E2) as (pre' & -> & ->).
      exists pre'. auto.
Qed.

Lemma step_goes_on i s evs s' :
  step i s evs (Return None) s' ->
  Forall (fun ev => ends_loop ev = false) evs.
Proof.
  intros H; step_cases H.
  repeat constructor. simpl. rewrite_class. reflexivity.
Qed.

(** Within one pass an event that ends the loop is the last one. *)
Lemma step_ends_last i s evs r s' pre ev post :
  step i s evs r s' ->
  evs = pre ++ ev :: post -> ends_loop ev = true -> post = [].
Proof.
  intros H; step_cases H; intros E Hev.
  - destruct pre; discriminate.
  - destruct pre as [| ? [|]]; try discriminate. now injection E.
  - destruct pre as [| ? [| ? [|]]]; try discriminate.
    + injection E as <- _. discriminate.
    + now injection E.
  - destruct pre as [| ? [| ? [|]]]; try discriminate.
    + injection E as <- _. discriminate.
    + now injection E.
  - destruct pre as [| ? [| ? [|]]]; try discriminate.
    + injection E as <- _. discriminate.
    + now injection E.
Qed.

Lemma step_ends_result i s evs r s' pre ev :
  step i s evs r s' ->
  evs = pre ++ [ev] ->
  match ev with
  | EvTogether c _ _ (Raise e) =>
      pre = [] /\ r = Raise e /\ conversation s' = c /\
      error_history s' = error_history s
  | EvExtract _ _ (Return cr) =>
      r = Return (Some (fst cr, snd cr, conversation s'))
  | _ => True
  end.
Proof.
  intros H; step_cases H; intros E.
  - destruct pre; discriminate.
  - destruct pre as [| ? [|]]; try discriminate.
    injection E as <-. auto.
  - destruct pre as [| ? [| ? [|]]]; try discriminate.
    injection E as _ <-. rewrite Hconv. reflexivity.
  - destruct pre as [| ? [| ? [|]]]; try discriminate.
    injection E as _ <-. exact I.
  - destruct pre as [| ? [| ? [|]]]; try discriminate.
    injection E as _ <-. exact I.
Qed.

(** In a whole loop too: nothing is called after such an event, and the
    event decides the result. *)
Lemma run_ends_last its s evs r s' :
  run its s evs r s' ->
  forall pre ev post,
    evs = pre ++ ev :: post -> ends_loop ev = true ->
    post = [] /\
    match ev with
    | EvTogether c _ _ (Raise e) =>
        r = Raise e /\ conversation s' = c /\
        error_history s' = error_history s ++ map exn_str (caught_failures pre)
    | EvExtract _ _ (Return cr) =>
        r = Return (Some (fst cr, snd cr, conversation s'))
    | _ => True
    end.
Proof.
  induction 1 as [s | i rest s evs1 s1 evs2 r s2 Hs Hr IH
                  | i rest s evs a s1 Hs | i rest s evs e s1 Hs];
    intros pre ev post E Hev.
  - destruct pre; discriminate.
  - destruct (app_split_at _ _ _ _ _ _ (step_goes_on _ _ _ _ Hs)
                (fun H => eq_true_false_abs _ Hev H) E) as (pre' & -> & E2).
    destruct (IH _ _ _ E2 Hev) as [-> Hres]. split; [reflexivity |].
    destruct ev as [c k m [| e] | | resp flag [cr | e]]; auto.
    destruct Hres as (-> & -> & Hh). repeat split.
    rewrite Hh, (step_history _ _ _ _ _ Hs), caught_failures_app, map_app,
      app_assoc. reflexivity.
  - pose proof (step_ends_last _ _ _ _ _ _ _ _ Hs E Hev) as ->.
    split; [reflexivity |].
    pose proof (step_ends_result _ _ _ _ _ _ _ Hs E) as Hres.
    destruct ev as [c k m [| e] | | resp flag [cr | e]]; auto.
    destruct Hres as (-> & -> & -> & ->). simpl. now rewrite app_nil_r.
  - pose proof (step_ends_last _ _ _ _ _ _ _ _ Hs E Hev) as ->.
    split; [reflexivity |].
    pose proof (step_ends_result _ _ _ _ _ _ _ Hs E) as Hres.
    destruct ev as [c k m [| e0] | | resp flag [cr | e0]]; auto.
    destruct Hres as (-> & -> & -> & ->). simpl. now rewrite app_nil_r.
Qed.

(** *** Successful loops *)

Lemma step_retry_shape i s evs s' :
  step i s evs (Return None) s' ->
  exists response e,
    conversation s'
    = conversation s
      ++ failed_attempt_turns standard_error_message (response, exn_str e) /\
    transport_calls evs = 1%nat.
Proof.
  intros H; step_cases H. exists response, e. split.
  - rewrite Hconv, <- app_assoc. reflexivity.
  - reflexivity.
Qed.

Lemma step_success_shape i s evs a s' :
  step i s evs (Return (Some a)) s' ->
  exists response,
    conversation s' = conversation s ++ [assistant_turn response] /\
    transport_calls evs = 1%nat.
Proof.
  intros H; step_cases H. exists response. split.
  - rewrite Hconv. reflexivity.
  - reflexivity.
Qed.

(** A loop that returns has appended the two turns of each failed attempt
    and the assistant turn of the successful one. *)
Lemma run_success_shape its s evs r s' :
  run its s evs r s' ->
  forall a, r = Return (Some a) ->
  exists (fails : list (string * string)) (final : string),
    conversation s'
    = conversation s
      ++ flat_map (failed_attempt_turns standard_error_message) fails
      ++ [assistant_turn final] /\
    transport_calls evs = S (List.length fails).
Proof.
  induction 1 as [s | i rest s evs1 s1 evs2 r s2 Hs Hr IH
                  | i rest s evs a0 s1 Hs | i rest s evs e s1 Hs];
    intros a Ha; try discriminate.
  - destruct (step_retry_shape _ _ _ _ Hs) as (response & e & E1 & N1).
    destruct (IH a Ha) as (fails & final & E2 & N2).
    exists ((response, exn_str e) :: fails), final. split.
    + rewrite E2, E1. simpl. rewrite <- !app_assoc. reflexivity.
    + rewrite transport_calls_app, N1, N2. reflexivity.
  - destruct (step_success_shape _ _ _ _ _ Hs) as (response & E1 & N1).
    exists [], response. split; assumption.
Qed.

(** *** The function in terms of the loop *)

Lemma call_entry c w :
  exists r s',
    run (Py.range (max_iterations + additional_iterations))
        (entry c w) (trace s') r s' /\
    call (entry c w)
    = (match r with
       | Return (Some a) => Return a
       | Return None => Raise (exhaustion_error llm_name max_iterations
                                                (error_history s'))
       | Raise e => Raise e
       end, s').
Proof.
  destruct (for_range_run
              (Py.range (max_iterations + additional_iterations))
              (entry c w)) as [evs Hr].
  pose proof (run_trace _ _ _ _ _ Hr) as Ht. simpl in Ht. subst evs.
  eexists. eexists. split; [exact Hr |].
  unfold generate_result_with_error_handling, bind, set_error_history.
  simpl. change (mk_state Env T c [] w [] []) with (@entry Env T c w).
  destruct (loop _ (entry c w)) as [[[a |] | e] s1]; reflexivity.
Qed.

(** Indices and iterations coincide on a prefix of [range]. *)
Lemma nth_error_range_prefix k n j i :
  nth_error (firstn k (Py.range n)) j = Some i -> i = Z.of_nat j.
Proof.
  unfold Py.range.
  rewrite nth_error_firstn. destruct (Nat.ltb j k); [| discriminate].
  rewrite nth_error_map, nth_error_seq.
  destruct (Nat.ltb j (Z.to_nat n)); simpl; [| discriminate].
  intros E. now injection E as <-.
Qed.

(** *** The claims *)

Local Abbreviation outcome c w := (fst (call (entry c w))).
Local Abbreviation final c w := (snd (call (entry c w))).

(** C1: with the provider value of [AIProviders.OLLAMA] and the default
    limits the loop does not reach the local transport: it raises the
    unsupported-provider error at once, having called nothing and changed
    nothing. *)
Theorem ollama_value_is_rejected c w :
  generate_result_with_error_handling
    chat_completions_create ENABLE_PRINTS extraction_function
    api_key llm_name (AIProviders.value AIProviders.OLLAMA) 5 5
    standard_error_message (entry c w)
  = (Raise (unsupported_provider_error (AIProviders.value AIProviders.OLLAMA)),
     entry c w).
Proof. reflexivity. Qed.

(** C2, amended: when each of the [max_iterations + additional_iterations]
    attempts fails extraction, the loop raises an error whose text starts
    with the model name and ends with the error history, and the history
    holds exactly that many descriptions, those of the failures in attempt
    order. *)
Theorem exhaustion_reports_every_failure c w :
  Z.of_nat (List.length (caught_failures (trace (final c w))))
  = max_iterations + additional_iterations ->
  (exists count,
     outcome c w
     = Raise (Exception
                (llm_name ++ " failed to fix the errors after " ++ count
                 ++ " iterations! This is the error history: "
                 ++ Py.str_list (error_history (final c w))))) /\
  error_history (final c w)
  = map exn_str (caught_failures (trace (final c w))) /\
  Z.of_nat (List.length (error_history (final c w)))
  = max_iterations + additional_iterations.
Proof.
  destruct (call_entry c w) as (r & s' & Hr & E). rewrite E. simpl.
  intros Hn.
  pose proof (run_history _ _ _ _ _ Hr) as Hh. simpl in Hh.
  destruct (run_caught_bound _ _ _ _ _ Hr) as [_ Hall].
  assert (Hlen : List.length (Py.range (max_iterations + additional_iterations))
                 = Z.to_nat (max_iterations + additional_iterations))
    by (unfold Py.range; now rewrite length_map, length_seq).
  rewrite Hall by (rewrite Hlen; lia).
  split; [| split].
  - eexists. reflexivity.
  - exact Hh.
  - rewrite Hh, length_map. exact Hn.
Qed.

(** C3, amended: a successful run appends, for each failed attempt, its
    assistant turn and its corrective user turn, and then the assistant
    turn of the successful attempt: [2 * attempts_used - 1] turns. *)
Theorem success_appends_two_per_failure_plus_one c w a :
  outcome c w = Return a ->
  exists (fails : list (string * string)) (final_response : string),
    conversation (final c w)
    = c ++ flat_map (failed_attempt_turns standard_error_message) fails
        ++ [assistant_turn final_response] /\
    transport_calls (trace (final c w)) = S (List.length fails) /\
    (List.length (conversation (final c w)) - List.length c
     = 2 * transport_calls (trace (final c w)) - 1)%nat.
Proof.
  destruct (call_entry c w) as (r & s' & Hr & E). rewrite E. simpl.
  intros Ha.
  destruct r as [[a0 |] | e]; try discriminate.
  destruct (run_success_shape _ _ _ _ _ Hr a0 eq_refl)
    as (fails & final_response & Hc & Hn).
  simpl in Hc. exists fails, final_response. repeat split; try assumption.
  rewrite Hc, Hn, !length_app, (flat_map_constant_length (c := 2%nat)).
  - simpl. lia.
  - intros x _. reflexivity.
Qed.

(** C4: the extraction call of attempt [j] (the [j]-th extraction call of
    the run, counting from 0) gets the flag [j >= max_iterations]. *)
Theorem tolerant_flag_from_primary_limit c w j response flag out :
  nth_error (extraction_calls (trace (final c w))) j
  = Some (response, flag, out) ->
  flag = (Z.of_nat j >=? max_iterations).
Proof.
  destruct (call_entry c w) as (r & s' & Hr & E). rewrite E. simpl.
  intros Hj.
  pose proof (run_flags _ _ _ _ _ Hr) as Hf.
  assert (H1 : nth_error (map call_flag (extraction_calls (trace s'))) j
               = Some flag)
    by (rewrite nth_error_map, Hj; reflexivity).
  rewrite Hf, nth_error_map in H1.
  destruct (nth_error (firstn _ (Py.range _)) j) as [i |] eqn:Hi;
    [| discriminate].
  apply nth_error_range_prefix in Hi. subst i.
  simpl in H1. now injection H1.
Qed.

(** C5, amended: with at least one attempt allowed and a provider value
    outside the enumeration, the call raises the configuration error at
    once: no transport or extraction call is made and nothing is changed. *)
Theorem unknown_provider_fails_at_once c w :
  0 < max_iterations + additional_iterations ->
  AIProviders.is_value ai_provider = false ->
  call (entry c w)
  = (Raise (unsupported_provider_error ai_provider), entry c w).
Proof.
  intros Hn Hp.
  assert (Hs : String.eqb ai_provider (AIProviders.value AIProviders.TOGETHER)
               = false).
  { unfold AIProviders.is_value in Hp. simpl in Hp.
    apply orb_false_iff in Hp as [_ Hp].
    apply orb_false_iff in Hp as [Hp _]. exact Hp. }
  unfold generate_result_with_error_handling, Py.range.
  destruct (Z.to_nat (max_iterations + additional_iterations)) as [| n] eqn:En;
    [lia |].
  unfold bind, set_error_history. simpl.
  unfold loop_body, bind. rewrite Hs. reflexivity.
Qed.

(** C6: when a transport call raises, it is the last call of the run; the
    run raises that same error; the conversation is the one that was handed
    to the transport, and the error history holds the descriptions of the
    earlier failures only. *)
Theorem transport_error_propagates c w pre messages key model e post :
  trace (final c w) = pre ++ EvTogether messages key model (Raise e) :: post ->
  post = [] /\
  outcome c w = Raise e /\
  conversation (final c w) = messages /\
  error_history (final c w) = map exn_str (caught_failures pre).
Proof.
  destruct (call_entry c w) as (r & s' & Hr & E). rewrite E. simpl.
  intros Ht.
  destruct (run_ends_last _ _ _ _ _ Hr _ _ _ Ht eq_refl)
    as (-> & -> & Hc & Hh).
  auto.
Qed.

(** C7: a run calls a transport at most
    [max_iterations + additional_iterations] times, and a successful
    extraction is the last call of the run, which then returns the code,
    the result and the conversation. *)
Theorem at_most_budget_calls_and_first_success_returns c w :
  (0 <= max_iterations + additional_iterations ->
   Z.of_nat (transport_calls (trace (final c w)))
   <= max_iterations + additional_iterations) /\
  (forall pre response flag code result post,
      trace (final c w)
      = pre ++ EvExtract response flag (Return (code, result)) :: post ->
      post = [] /\
      outcome c w = Return (code, result, conversation (final c w))).
Proof.
  destruct (call_entry c w) as (r & s' & Hr & E). rewrite E. simpl.
  split.
  - intros Hn. pose proof (run_transport_calls _ _ _ _ _ Hr) as Hb.
    unfold Py.range in Hb. rewrite length_map, length_seq in Hb. lia.
  - intros pre response flag code result post Ht.
    destruct (run_ends_last _ _ _ _ _ Hr _ _ _ Ht eq_refl) as (-> & ->).
    auto.
Qed.

(** C8: whatever the outcome, the conversation at the end of the call is
    the conversation at entry followed by appended turns. *)
Theorem conversation_only_grows c w :
  exists appended,
    conversation
      (snd (generate_result_with_error_handling
              chat_completions_create ENABLE_PRINTS extraction_function
              api_key llm_name ai_provider max_iterations
              additional_iterations standard_error_message (entry c w)))
    = c ++ appended.
Proof.
  destruct (call_entry c w) as (r & s' & Hr & E). rewrite E. simpl.
  exact (run_conversation _ _ _ _ _ Hr).
Qed.

(** C9: with [max_iterations + additional_iterations = 0] the call raises
    the exhaustion error with an empty history, whatever the provider,
    having called nothing and changed nothing. *)
Theorem zero_budget_is_exhausted_at_once c w :
  max_iterations + additional_iterations = 0 ->
  call (entry c w)
  = (Raise (exhaustion_error llm_name max_iterations []), entry c w).
Proof.
  intros Hn. unfold generate_result_with_error_handling.
  rewrite Hn. reflexivity.
Qed.

(** C10, amended: an exception of the extraction function that is an
    instance of [Exception] is caught: its description joins the error
    history, the corrective user turn with that description joins the
    conversation after the assistant turn, and the loop goes on with the
    remaining iterations. *)
Theorem caught_exception_is_retried i rest s response s1 e w2 :
  supported ai_provider = true ->
  together (conversation s) api_key llm_name s = (Return response, s1) ->
  extraction_function response (i >=? max_iterations) (world s1)
  = (Raise e, w2) ->
  under_Exception e = true ->
  loop (i :: rest) s
  = loop rest
      {| conversation :=
           conversation s
           ++ [assistant_turn response;
               user_turn (new_message standard_error_message (exn_str e))];
         error_history := error_history s ++ [exn_str e];
         world := w2;
         stdout := printed ENABLE_PRINTS i (stdout s);
         trace :=
           trace s
           ++ [EvTogether (conversation s) api_key llm_name (Return response);
               EvExtract response (i >=? max_iterations) (Raise e)] |}.
Proof.
  intros Hp Ht Hx He.
  destruct (together_frame _ _ _ _ _ _ Ht) as (Hc & Hh & Ho & Htr).
  unfold supported in Hp.
  cbn [for_range]. unfold bind at 1. unfold loop_body.
  rewrite Hp. unfold bind at 1. unfold bind at 1. unfold get_conversation.
  rewrite Ht.
  unfold try_except_Exception, bind, conversation_append, call_extraction,
    traced, call_world, error_history_append, print, ret, printed.
  simpl. rewrite Hx, He, Hc, Hh, Ho, Htr.
  destruct ENABLE_PRINTS; simpl; rewrite <- !app_assoc; reflexivity.
Qed.

(** *** The transports *)

Variable requests_post_content :
  string -> chat_payload -> Env -> res string * Env.

Local Abbreviation ollama :=
  (generate_response_with_history_ollama (T := T) requests_post_content).

(** Copying the two keys of every message gives the conversation back. *)
Lemma messages_as_given (c : list turn) :
  map (fun message => {| role := role message; content := content message |}) c
  = c.
Proof.
  induction c as [| [r t] c IH]; simpl; [reflexivity |].
  now rewrite IH.
Qed.

(** X1: The cloud transport sends the conversation as it is, with the model, the
    key, 4096 tokens and temperature 0.1; it returns the content of the
    first choice, turns an empty list of choices and every [Exception] of
    the service into its own connection error, and lets other exceptions
    through. *)
Theorem together_outcome c k m (s : state Env T) :
  fst (together c k m s)
  = match fst (chat_completions_create
                 {| cr_provider := "together"; cr_api_key := k;
                    cr_model := m; cr_messages := c;
                    cr_max_tokens := 4096; cr_temperature := (1 # 10)%Q |}
                 (world s)) with
    | Return (first :: _) => Return first
    | Return [] =>
        Raise (Exception
                 "Together API connection failed: list index out of range")
    | Raise e =>
        if under_Exception e
        then Raise (Exception ("Together API connection failed: " ++ exn_str e))
        else Raise e
    end.
Proof.
  unfold generate_response_with_together, traced, try_except_Exception,
    bind, call_world, ret, raise.
  rewrite messages_as_given.
  destruct (chat_completions_create _ (world s)) as [[[| first others] | e] w];
    simpl; try reflexivity.
  destruct (under_Exception e); reflexivity.
Qed.

Lemma prefix_app (p x : string) : String.prefix p (p ++ x) = true.
Proof.
  induction p as [| a p IH]; simpl.
  - destruct x; reflexivity.
  - destruct (ascii_dec a a); [exact IH | contradiction].
Qed.

(** X2: Every [Exception] the cloud transport raises is its connection error. *)
Theorem together_errors_are_connection_errors c k m (s : state Env T) e s1 :
  together c k m s = (Raise e, s1) ->
  under_Exception e = true ->
  String.prefix "Together API connection failed: " (exn_str e) = true.
Proof.
  unfold generate_response_with_together, traced, try_except_Exception,
    bind, call_world, ret, raise.
  destruct (chat_completions_create _ (world s)) as [[[| first others] | e0] w];
    cbn [fst snd].
  - intros H _. injection H as <- _. reflexivity.
  - discriminate.
  - destruct (under_Exception e0) eqn:He0; cbn [fst snd]; intros H He;
      injection H as <- _.
    + exact (prefix_app "Together API connection failed: " (exn_str e0)).
    + congruence.
Qed.

(** X3: The local transport posts the model, the conversation as it is and
    [stream = False] to the chat endpoint of the local server; it returns
    the content, turns every [Exception] into its own connection error and
    lets other exceptions through. *)
Theorem ollama_outcome c k m (s : state Env T) :
  fst (ollama c k m s)
  = match fst (requests_post_content
                 "http://localhost:11434/api/chat"
                 {| cp_model := m; cp_messages := c; cp_stream := false |}
                 (world s)) with
    | Return text => Return text
    | Raise e =>
        if under_Exception e
        then Raise (Exception ("Ollama connection failed: " ++ exn_str e))
        else Raise e
    end.
Proof.
  unfold generate_response_with_history_ollama, traced, try_except_Exception,
    call_world, raise.
  rewrite messages_as_given.
  destruct (requests_post_content _ _ (world s)) as [[text | e] w]; simpl;
    try reflexivity.
  destruct (under_Exception e); reflexivity.
Qed.

(** X4: The local transport does not use the API key: the answer and the world
    it leaves are the same for any two keys. *)
Theorem ollama_ignores_api_key c k1 k2 m (s : state Env T) :
  fst (ollama c k1 m s) = fst (ollama c k2 m s) /\
  world (snd (ollama c k1 m s)) = world (snd (ollama c k2 m s)).
Proof.
  unfold generate_response_with_history_ollama, traced, try_except_Exception,
    call_world, raise.
  destruct (requests_post_content _ _ (world s)) as [[text | e] w]; simpl;
    [auto |].
  destruct (under_Exception e); simpl; auto.
Qed.

(** A transport call leaves the conversation, the error history and the
    output alone and is recorded once. *)
Lemma ollama_frame c k m (s : state Env T) r s1 :
  ollama c k m s = (r, s1) ->
  conversation s1 = conversation s /\
  error_history s1 = error_history s /\
  stdout s1 = stdout s /\
  trace s1 = trace s ++ [EvOllama c k m r].
Proof.
  unfold generate_response_with_history_ollama, traced, try_except_Exception,
    call_world, raise.
  destruct (requests_post_content _ _ (world s)) as [[text | e] w].
  - simpl; intros H; inversion H; subst; simpl; auto.
  - destruct (under_Exception e); simpl; intros H; inversion H; subst;
      simpl; auto.
Qed.

(** *** The calls of a run *)

Lemma step_retry_inv i s evs s' :
  step i s evs (Return None) s' ->
  exists response e,
    evs = [EvTogether (conversation s) api_key llm_name (Return response);
           EvExtract response (i >=? max_iterations) (Raise e)] /\
    under_Exception e = true /\
    conversation s'
    = conversation s
      ++ failed_attempt_turns standard_error_message (response, exn_str e).
Proof.
  intros H; step_cases H. exists response, e. repeat split; auto.
  rewrite Hconv, <- app_assoc. reflexivity.
Qed.

(** In one pass the transport call comes first and gets the conversation of
    that moment. *)
Lemma step_transport_event i s evs r s' pre messages key model out post :
  step i s evs r s' ->
  evs = pre ++ EvTogether messages key model out :: post ->
  pre = [] /\ messages = conversation s /\ key = api_key /\ model = llm_name.
Proof.
  intros H; step_cases H; intros E.
  - destruct pre; discriminate.
  - destruct pre as [| ? [|]]; try discriminate. injection E; auto.
  - destruct pre as [| ? [| ? [|]]]; try discriminate; injection E; auto.
  - destruct pre as [| ? [| ? [|]]]; try discriminate; injection E; auto.
  - destruct pre as [| ? [| ? [|]]]; try discriminate; injection E; auto.
Qed.

(** In one pass the extraction call follows the transport call and gets its
    response. *)
Lemma step_extract_event i s evs r s' pre response flag out post :
  step i s evs r s' ->
  evs = pre ++ EvExtract response flag out :: post ->
  pre = [EvTogether (conversation s) api_key llm_name (Return response)].
Proof.
  intros H; step_cases H; intros E.
  - destruct pre; discriminate.
  - destruct pre as [| ? [|]]; discriminate.
  - destruct pre as [| ? [| ? [|]]]; try discriminate.
    injection E as <- <- _ _. reflexivity.
  - destruct pre as [| ? [| ? [|]]]; try discriminate.
    injection E as <- <- _ _. reflexivity.
  - destruct pre as [| ? [| ? [|]]]; try discriminate.
    injection E as <- <- _ _. reflexivity.
Qed.

Lemma run_transport_event its s evs r s' :
  run its s evs r s' ->
  forall pre messages key model out post,
    evs = pre ++ EvTogether messages key model out :: post ->
    key = api_key /\ model = llm_name /\
    exists fails : list (string * string),
      messages
      = conversation s
        ++ flat_map (failed_attempt_turns standard_error_message) fails /\
      List.length fails = transport_calls pre /\
      map snd fails = map exn_str (caught_failures pre).
Proof.
  induction 1 as [s | i rest s evs1 s1 evs2 r s2 Hs Hr IH
                  | i rest s evs a s1 Hs | i rest s evs e s1 Hs];
    intros pre messages key model out post E.
  - destruct pre; discriminate.
  - destruct (step_retry_inv _ _ _ _ Hs) as (response & e & -> & He & Hc).
    destruct pre as [| p0 [| p1 pre']]; simpl in E.
    + injection E as <- <- <- _ _. repeat split.
      exists []. simpl. now rewrite app_nil_r.
    + injection E as _ E _. discriminate.
    + injection E as <- <- E.
      destruct (IH _ _ _ _ _ _ E) as (-> & -> & fails & Hm & Hn & Hd).
      repeat split.
      exists ((response, exn_str e) :: fails). repeat split.
      * rewrite Hm, Hc. simpl. rewrite <- !app_assoc. reflexivity.
      * simpl. rewrite Hn. reflexivity.
      * simpl. rewrite He. simpl. now rewrite Hd.
  - destruct (step_transport_event _ _ _ _ _ _ _ _ _ _ _ Hs E)
      as (-> & -> & -> & ->).
    repeat split. exists []. simpl. now rewrite app_nil_r.
  - destruct (step_transport_event _ _ _ _ _ _ _ _ _ _ _ Hs E)
      as (-> & -> & -> & ->).
    repeat split. exists []. simpl. now rewrite app_nil_r.
Qed.

Lemma run_extract_event its s evs r s' :
  run its s evs r s' ->
  forall pre response flag out post,
    evs = pre ++ EvExtract response flag out :: post ->
    exists pre' messages,
      pre = pre' ++ [EvTogether messages api_key llm_name (Return response)].
Proof.
  induction 1 as [s | i rest s evs1 s1 evs2 r s2 Hs Hr IH
                  | i rest s evs a s1 Hs | i rest s evs e s1 Hs];
    intros pre response flag out post E.
  - destruct pre; discriminate.
  - destruct (step_retry_inv _ _ _ _ Hs) as (response0 & e & -> & He & Hc).
    destruct pre as [| p0 [| p1 pre']]; simpl in E.
    + discriminate.
    + injection E as <- <- _ _ _. exists [], (conversation s). reflexivity.
    + injection E as <- <- E.
      destruct (IH _ _ _ _ _ E) as (pre2 & messages & ->).
      eexists (_ :: _ :: pre2), messages. reflexivity.
  - rewrite (step_extract_event _ _ _ _ _ _ _ _ _ _ Hs E).
    exists [], (conversation s). reflexivity.
  - rewrite (step_extract_event _ _ _ _ _ _ _ _ _ _ Hs E).
    exists [], (conversation s). reflexivity.
Qed.

Lemma run_no_ollama its s evs r s' :
  run its s evs r s' -> filter is_ollama_call evs = [].
Proof.
  induction 1 as [s | i rest s evs1 s1 evs2 r s2 Hs Hr IH
                  | i rest s evs a s1 Hs | i rest s evs e s1 Hs].
  - reflexivity.
  - rewrite filter_app, IH, app_nil_r. step_cases Hs. reflexivity.
  - step_cases Hs. reflexivity.
  - step_cases Hs; reflexivity.
Qed.

(** With the supported provider a pass starts with a transport call. *)
Lemma run_first_event i rest s evs r s' :
  run (i :: rest) s evs r s' ->
  supported ai_provider = true ->
  exists out tl, evs = EvTogether (conversation s) api_key llm_name out :: tl.
Proof.
  intros H Hp. inversion H as [| ? ? ? ? ? ? ? ? Hs | ? ? ? ? ? ? Hs
                               | ? ? ? ? ? ? Hs]; subst;
    step_cases Hs; try congruence; eexists; eexists; reflexivity.
Qed.

(** *** What is printed *)

Lemma firstn_seq_le k : forall a n, (k <= n)%nat -> firstn k (seq a n) = seq a k.
Proof.
  induction k as [| k IH]; intros a n Hk; [reflexivity |].
  destruct n as [| n]; [lia |]. simpl. f_equal. apply IH. lia.
Qed.

Lemma step_stdout i s evs r s' :
  step i s evs r s' ->
  stdout s'
  = match r with
    | Return None => printed ENABLE_PRINTS i (stdout s)
    | _ => stdout s
    end.
Proof. intros H; step_cases H; congruence. Qed.

Lemma run_stdout its s evs r s' :
  run its s evs r s' ->
  stdout s'
  = stdout s
    ++ (if ENABLE_PRINTS
        then map (fun i => ("Error detected in iteration "
                            ++ Py.str_int (i + 1))%string)
                 (firstn (List.length (caught_failures evs)) its)
        else []).
Proof.
  induction 1 as [s | i rest s evs1 s1 evs2 r s2 Hs Hr IH
                  | i rest s evs a s1 Hs | i rest s evs e s1 Hs].
  - simpl. destruct ENABLE_PRINTS; now rewrite app_nil_r.
  - pose proof (step_caught _ _ _ _ _ Hs) as H1. simpl in H1.
    pose proof (step_stdout _ _ _ _ _ Hs) as H2. simpl in H2.
    rewrite caught_failures_app, length_app, H1, IH, H2. unfold printed.
    destruct ENABLE_PRINTS; simpl; [| reflexivity].
    rewrite <- app_assoc. reflexivity.
  - pose proof (step_caught _ _ _ _ _ Hs) as H1. simpl in H1.
    rewrite H1, (step_stdout _ _ _ _ _ Hs). simpl.
    destruct ENABLE_PRINTS; now rewrite app_nil_r.
  - pose proof (step_caught _ _ _ _ _ Hs) as H1. simpl in H1.
    rewrite H1, (step_stdout _ _ _ _ _ Hs). simpl.
    destruct ENABLE_PRINTS; now rewrite app_nil_r.
Qed.

(** *** How a run can fail *)

Lemma step_raise_kinds i s evs e s' :
  step i s evs (Raise e) s' ->
  supported ai_provider = true ->
  exists pre ev,
    evs = pre ++ [ev] /\ event_error ev = Some e /\ ends_loop ev = true.
Proof.
  intros H Hp; step_cases H.
  - congruence.
  - exists [], (EvTogether (conversation s) api_key llm_name (Raise e)). auto.
  - eexists [_], _. repeat split. simpl. rewrite_class. reflexivity.
Qed.

Lemma run_raise_kinds its s evs r s' :
  run its s evs r s' ->
  supported ai_provider = true ->
  match r with
  | Raise e =>
      exists pre ev,
        evs = pre ++ [ev] /\ event_error ev = Some e /\ ends_loop ev = true
  | Return None => List.length (caught_failures evs) = List.length its
  | Return (Some _) => True
  end.
Proof.
  induction 1 as [s | i rest s evs1 s1 evs2 r s2 Hs Hr IH
                  | i rest s evs a s1 Hs | i rest s evs e s1 Hs];
    intros Hp.
  - reflexivity.
  - pose proof (step_caught _ _ _ _ _ Hs) as H1. simpl in H1.
    specialize (IH Hp). destruct r as [[a |] | e]; auto.
    + rewrite caught_failures_app, length_app, H1, IH. reflexivity.
    + destruct IH as (pre & ev & -> & He & Hl).
      exists (evs1 ++ pre), ev. rewrite app_assoc. auto.
  - exact I.
  - eapply step_raise_kinds; eauto.
Qed.

Lemma step_escape_inv i s evs r s' pre response flag e :
  step i s evs r s' ->
  evs = pre ++ [EvExtract response flag (Raise e)] ->
  under_Exception e = false ->
  r = Raise e /\
  conversation s' = conversation s ++ [assistant_turn response] /\
  error_history s' = error_history s /\
  caught_failures pre = [].
Proof.
  intros H; step_cases H; intros E He.
  - destruct pre; discriminate.
  - destruct pre as [| ? [|]]; discriminate.
  - destruct pre as [| ? [| ? [|]]]; discriminate.
  - destruct pre as [| ? [| ? [|]]]; try discriminate.
    injection E as _ _ _ E. congruence.
  - destruct pre as [| ? [| ? [|]]]; try discriminate.
    injection E as <- <- _ <-. rewrite Hconv, Hhist. auto.
Qed.

Lemma run_escape its s evs r s' :
  run its s evs r s' ->
  forall pre response flag e,
    evs = pre ++ [EvExtract response flag (Raise e)] ->
    under_Exception e = false ->
    r = Raise e /\
    (exists before, conversation s' = before ++ [assistant_turn response]) /\
    error_history s' = error_history s ++ map exn_str (caught_failures pre).
Proof.
  induction 1 as [s | i rest s evs1 s1 evs2 r s2 Hs Hr IH
                  | i rest s evs a s1 Hs | i rest s evs e0 s1 Hs];
    intros pre response flag e E He.
  - destruct pre; discriminate.
  - assert (Hends : ends_loop (T := T) (EvExtract response flag (Raise e))
                    = true)
      by (simpl; now rewrite He).
    destruct (app_split_at _ _ _ _ _ _ (step_goes_on _ _ _ _ Hs)
                (fun H => eq_true_false_abs _ Hends H) E) as (pre' & -> & E2).
    destruct (IH _ _ _ _ E2 He) as (-> & Hc & Hh). repeat split; auto.
    rewrite Hh, (step_history _ _ _ _ _ Hs), caught_failures_app, map_app,
      app_assoc. reflexivity.
  - destruct (step_escape_inv _ _ _ _ _ _ _ _ _ Hs E He) as (Hr & _).
    discriminate.
  - destruct (step_escape_inv _ _ _ _ _ _ _ _ _ Hs E He)
      as (Hr & Hc & Hh & Hp).
    repeat split; auto.
    + eexists. exact Hc.
    + rewrite Hh, Hp. simpl. now rewrite app_nil_r.
Qed.

(** *** Further properties of the function *)

Lemma range_length n : List.length (Py.range n) = Z.to_nat n.
Proof. unfold Py.range. now rewrite length_map, length_seq. Qed.

Lemma range_positive n :
  0 < n -> exists rest, Py.range n = 0 :: rest.
Proof.
  intros Hn. unfold Py.range.
  destruct (Z.to_nat n) as [| k] eqn:E; [lia |].
  simpl. eexists. reflexivity.
Qed.

Lemma unsupported_raises_at_once c w :
  0 < max_iterations + additional_iterations ->
  supported ai_provider = false ->
  call (entry c w)
  = (Raise (unsupported_provider_error ai_provider), entry c w).
Proof.
  intros Hn Hp. unfold supported in Hp.
  unfold generate_result_with_error_handling.
  destruct (range_positive _ Hn) as [rest ->].
  unfold bind, set_error_history. simpl.
  unfold loop_body, bind. rewrite Hp. reflexivity.
Qed.

Lemma empty_range_is_exhaustion c w :
  max_iterations + additional_iterations <= 0 ->
  call (entry c w)
  = (Raise (exhaustion_error llm_name max_iterations []), entry c w).
Proof.
  intros Hn. unfold generate_result_with_error_handling, Py.range.
  replace (Z.to_nat (max_iterations + additional_iterations)) with 0%nat by lia.
  reflexivity.
Qed.

(** X5: Any provider value other than that of [AIProviders.TOGETHER], the value
    of [AIProviders.OLLAMA] included, is rejected on the first iteration:
    the call raises the unsupported-provider error and nothing is called or
    changed. *)
Theorem only_together_is_dispatched c w :
  0 < max_iterations + additional_iterations ->
  ai_provider <> AIProviders.value AIProviders.TOGETHER ->
  call (entry c w)
  = (Raise (unsupported_provider_error ai_provider), entry c w).
Proof.
  intros Hn Hp. apply unsupported_raises_at_once; [exact Hn |].
  unfold supported. now apply String.eqb_neq.
Qed.

(** X6: With the Together value and at least one attempt allowed the run starts
    with a call of the cloud transport on the conversation as the caller
    gave it, with the caller's key and model name. *)
Theorem first_call_sends_the_given_conversation c w :
  ai_provider = AIProviders.value AIProviders.TOGETHER ->
  0 < max_iterations + additional_iterations ->
  exists out rest,
    trace (final c w) = EvTogether c api_key llm_name out :: rest.
Proof.
  intros Hp Hn.
  destruct (call_entry c w) as (r & s' & Hr & E). rewrite E. simpl.
  destruct (range_positive _ Hn) as [rest Hrange]. rewrite Hrange in Hr.
  apply (run_first_event _ _ _ _ _ _ Hr).
  unfold supported. rewrite Hp. reflexivity.
Qed.

(** X7: Every transport call of a run gets the caller's key and model name and
    the whole conversation so far: the conversation at entry followed by the
    assistant turn and the corrective turn of each earlier attempt, one pair
    per earlier transport call, the corrective turns quoting the failures
    caught so far in order. *)
Theorem each_call_sends_the_whole_history c w pre messages key model out post :
  trace (final c w) = pre ++ EvTogether messages key model out :: post ->
  key = api_key /\ model = llm_name /\
  exists fails : list (string * string),
    messages
    = c ++ flat_map (failed_attempt_turns standard_error_message) fails /\
    List.length fails = transport_calls pre /\
    map snd fails = map exn_str (caught_failures pre).
Proof.
  destruct (call_entry c w) as (r & s' & Hr & E). rewrite E. simpl.
  intros Ht. exact (run_transport_event _ _ _ _ _ Hr _ _ _ _ _ _ Ht).
Qed.

(** X8: The extraction function is only ever called right after a transport
    call that returned, and on the response of that call. *)
Theorem extraction_gets_the_latest_response c w pre response flag out post :
  trace (snd (generate_result_with_error_handling
                chat_completions_create ENABLE_PRINTS extraction_function
                api_key llm_name ai_provider max_iterations
                additional_iterations standard_error_message (entry c w)))
  = pre ++ EvExtract response flag out :: post ->
  exists pre' messages,
    pre = pre' ++ [EvTogether messages api_key llm_name (Return response)].
Proof.
  destruct (call_entry c w) as (r & s' & Hr & E). rewrite E. simpl.
  intros Ht. exact (run_extract_event _ _ _ _ _ Hr _ _ _ _ _ Ht).
Qed.

(** X9: The loop never calls the local transport, whatever the provider value
    and the world. *)
Theorem local_transport_is_never_called c w :
  filter is_ollama_call (trace (final c w)) = [].
Proof.
  destruct (call_entry c w) as (r & s' & Hr & E). rewrite E. simpl.
  exact (run_no_ollama _ _ _ _ _ Hr).
Qed.

(** X10: For every outcome the error history holds the descriptions of the
    exceptions caught from the extraction function, one entry each, in the
    order of the calls. *)
Theorem history_records_the_caught_failures c w :
  error_history (final c w)
  = map exn_str (caught_failures (trace (final c w))).
Proof.
  destruct (call_entry c w) as (r & s' & Hr & E). rewrite E. simpl.
  exact (run_history _ _ _ _ _ Hr).
Qed.

(** X11: With [ENABLE_PRINTS] off the loop prints nothing; with it on it prints
    one line per caught failure, numbered from 1 in attempt order. *)
Theorem one_line_per_caught_failure c w :
  stdout (final c w)
  = if ENABLE_PRINTS
    then map (fun j => ("Error detected in iteration "
                        ++ Py.str_int (Z.of_nat j + 1))%string)
             (seq 0 (List.length (error_history (final c w))))
    else [].
Proof.
  destruct (call_entry c w) as (r & s' & Hr & E). rewrite E. simpl.
  pose proof (run_stdout _ _ _ _ _ Hr) as Ho.
  pose proof (run_history _ _ _ _ _ Hr) as Hh.
  destruct (run_caught_bound _ _ _ _ _ Hr) as [Hb _].
  rewrite range_length in Hb.
  cbn [entry stdout error_history app] in Ho, Hh.
  rewrite Ho, Hh, length_map.
  unfold Py.range. rewrite firstn_map, firstn_seq_le by exact Hb.
  rewrite map_map. reflexivity.
Qed.


(** X13: An exception of the extraction function that is not an [Exception]
    (such as [SystemExit]) ends the run: it is the last call, the run raises
    that exception, the assistant turn of the attempt stays as the last turn
    with no corrective turn after it, and the error history gets no entry
    for it. *)
Theorem uncaught_exception_ends_the_run c w pre response flag e post :
  trace (final c w) = pre ++ EvExtract response flag (Raise e) :: post ->
  under_Exception e = false ->
  post = [] /\
  outcome c w = Raise e /\
  (exists before,
     conversation (final c w) = before ++ [assistant_turn response]) /\
  error_history (final c w) = map exn_str (caught_failures pre).
Proof.
  destruct (call_entry c w) as (r & s' & Hr & E). rewrite E. simpl.
  intros Ht He.
  assert (Hends : ends_loop (T := T) (EvExtract response flag (Raise e)) = true)
    by (simpl; now rewrite He).
  destruct (run_ends_last _ _ _ _ _ Hr _ _ _ Ht Hends) as [-> _].
  destruct (run_escape _ _ _ _ _ Hr _ _ _ _ Ht He) as (-> & Hc & Hh).
  auto.
Qed.

(** X14: A total budget of zero or less, negative limits included, gives an
    empty range: the call raises the exhaustion error with an empty history
    and nothing is called or changed. *)
Theorem nonpositive_budget_is_exhausted_at_once c w :
  max_iterations + additional_iterations <= 0 ->
  call (entry c w)
  = (Raise (exhaustion_error llm_name max_iterations []), entry c w).
Proof. exact (empty_range_is_exhaustion c w). Qed.

(** *** print_conversation *)

Lemma print_messages_spec messages :
  forall (a : nat) (s : state Env T),
    print_messages (Z.of_nat a) messages s
    = (Return tt,
       {| conversation := conversation s;
          error_history := error_history s;
          world := world s;
          stdout := stdout s
                    ++ map (fun p => message_line (Z.of_nat (fst p)) (snd p))
                           (combine (seq a (List.length messages)) messages);
          trace := trace s |}).
Proof.
  induction messages as [| msg rest IH]; intros a s.
  - simpl. rewrite app_nil_r. destruct s; reflexivity.
  - cbn [print_messages]. unfold bind at 1. unfold print at 1.
    replace (Z.of_nat a + 1) with (Z.of_nat (S a)) by lia.
    rewrite IH. simpl. rewrite <- app_assoc. reflexivity.
Qed.

(** X15: [print_conversation] never raises and touches nothing but the output:
    with [ENABLE_PRINTS] off it prints nothing; with it on it prints a blank
    block, one line per message in order, indexed from 0, and a blank block
    again. *)
Theorem print_conversation_output messages (s : state Env T) :
  print_conversation ENABLE_PRINTS messages s
  = (Return tt,
     {| conversation := conversation s;
        error_history := error_history s;
        world := world s;
        stdout := stdout s
                  ++ (if ENABLE_PRINTS
                      then blank_lines
                           :: map (fun p => message_line (Z.of_nat (fst p)) (snd p))
                                  (combine (seq 0 (List.length messages)) messages)
                           ++ [blank_lines]
                      else []);
        trace := trace s |}).
Proof.
  unfold print_conversation. destruct ENABLE_PRINTS.
  - unfold bind at 1. unfold print at 1. unfold bind at 1.
    change 0 with (Z.of_nat 0). rewrite print_messages_spec.
    unfold print. simpl. rewrite <- !app_assoc. reflexivity.
  - unfold ret. rewrite app_nil_r. destruct s; reflexivity.
Qed.

Lemma contains_app c (a b : string) :
  Py.contains c (a ++ b) = (Py.contains c a || Py.contains c b)%bool.
Proof.
  induction a as [| d a IH]; simpl; [reflexivity |].
  now rewrite IH, orb_assoc.
Qed.

Lemma contains_replace_same old new s :
  Ascii.eqb old new = false ->
  Py.contains old (Py.replace_char old new s) = false.
Proof.
  intros Hn. induction s as [| c s IH]; simpl; [reflexivity |].
  rewrite IH, orb_false_r.
  destruct (Ascii.eqb c old) eqn:Ec; [exact Hn |].
  now rewrite Ascii.eqb_sym.
Qed.

Lemma contains_replace_other c old new s :
  Ascii.eqb c new = false ->
  Py.contains c s = false ->
  Py.contains c (Py.replace_char old new s) = false.
Proof.
  intros Hn. induction s as [| d s IH]; simpl; [reflexivity |].
  intros H. apply orb_false_iff in H as [H1 H2].
  rewrite (IH H2), orb_false_r.
  destruct (Ascii.eqb d old); assumption.
Qed.

Lemma digits_have_no_line_break c d :
  c = Py.LF \/ c = Py.CR ->
  Py.contains c (NilEmpty.string_of_uint d) = false.
Proof.
  intros [-> | ->]; induction d; simpl; auto.
Qed.

Lemma str_int_has_no_line_break c n :
  c = Py.LF \/ c = Py.CR -> Py.contains c (Py.str_int n) = false.
Proof.
  intros Hc. unfold Py.str_int, NilZero.string_of_int.
  destruct (Z.to_int n) as [d | d].
  - unfold NilZero.string_of_uint.
    destruct d; try apply (digits_have_no_line_break c _ Hc).
    destruct Hc as [-> | ->]; reflexivity.
  - change (Py.contains c ("-" ++ NilZero.string_of_uint d) = false).
    rewrite contains_app. apply orb_false_iff. split.
    + destruct Hc as [-> | ->]; reflexivity.
    + unfold NilZero.string_of_uint.
      destruct d; try apply (digits_have_no_line_break c _ Hc).
      destruct Hc as [-> | ->]; reflexivity.
Qed.

(** X16: Whatever the roles and contents, the line printed for a message holds
    neither a line feed nor a carriage return: each message takes one line
    of the output. *)
Theorem message_line_is_one_line index msg :
  Py.contains Py.LF (message_line index msg) = false /\
  Py.contains Py.CR (message_line index msg) = false.
Proof.
  unfold message_line. split.
  - cbn [Py.contains]. rewrite !contains_app.
    rewrite (str_int_has_no_line_break Py.LF index (or_introl eq_refl)).
    rewrite contains_replace_other;
      [reflexivity | reflexivity | now apply contains_replace_same].
  - cbn [Py.contains]. rewrite !contains_app.
    rewrite (str_int_has_no_line_break Py.CR index (or_intror eq_refl)).
    rewrite contains_replace_same; reflexivity.
Qed.

End Properties.

(** ** The claims on concrete runs *)

(** C2 as stated fails: with provider "Together", model "m" and limits 1 and
    0 the only attempt fails extraction, and the error raised mentions
    neither the provider nor the total of 1 attempt. *)
Lemma exhaustion_error_names_neither_provider_nor_total :
  Z.of_nat (List.length (caught_failures
              (trace (snd (Demo.call Demo.always_fails "Together" 1 0)))))
  = 1 + 0 /\
  exists msg,
    fst (Demo.call Demo.always_fails "Together" 1 0) = Raise (Exception msg) /\
    Py.mentions "Together" msg = false /\
    Py.mentions (Py.str_int (1 + 0)) msg = false.
Proof.
  vm_compute. split; [reflexivity |].
  eexists. split; [reflexivity |]. split; reflexivity.
Qed.

Lemma exhaustion_reports_every_failure_witness :
  Z.of_nat (List.length (caught_failures
              (trace (snd (Demo.call Demo.always_fails "Together" 2 1)))))
  = 2 + 1 /\
  error_history (snd (Demo.call Demo.always_fails "Together" 2 1))
  = map exn_str (caught_failures
                   (trace (snd (Demo.call Demo.always_fails "Together" 2 1)))) /\
  Z.of_nat (List.length
              (error_history (snd (Demo.call Demo.always_fails "Together" 2 1))))
  = 2 + 1.
Proof.
  split; [vm_compute; reflexivity |].
  apply (exhaustion_reports_every_failure
           Demo.service false Demo.always_fails "key" "m" "Together" 2 1
           "Fix it." Demo.task 0%nat).
  vm_compute. reflexivity.
Defined.

(** The history of that run, in attempt order. *)
Example exhaustion_history_in_attempt_order :
  error_history (snd (Demo.call Demo.always_fails "Together" 2 1))
  = ["e0"; "e1"; "e2"]%string.
Proof. vm_compute. reflexivity. Qed.

(** C3 as stated fails: an extraction function that fails once and then
    succeeds, with limits 5 and 5, uses 2 attempts and appends 3 turns, not
    4. *)
Lemma one_failure_then_success_appends_three_turns :
  (exists a, fst (Demo.call (Demo.fails_first 1) "Together" 5 5) = Return a) /\
  transport_calls (trace (snd (Demo.call (Demo.fails_first 1) "Together" 5 5)))
  = 2%nat /\
  (List.length (conversation (snd (Demo.call (Demo.fails_first 1) "Together" 5 5)))
   - List.length Demo.task)%nat
  <> (2 * transport_calls
            (trace (snd (Demo.call (Demo.fails_first 1) "Together" 5 5))))%nat.
Proof.
  vm_compute. split; [eexists; reflexivity |]. split; [reflexivity |].
  discriminate.
Qed.

Lemma success_appends_two_per_failure_plus_one_witness :
  exists (fails : list (string * string)) (final_response : string),
    conversation (snd (Demo.call (Demo.fails_first 1) "Together" 5 5))
    = Demo.task ++ flat_map (failed_attempt_turns "Fix it.") fails
        ++ [assistant_turn final_response] /\
    transport_calls (trace (snd (Demo.call (Demo.fails_first 1) "Together" 5 5)))
    = S (List.length fails) /\
    (List.length (conversation (snd (Demo.call (Demo.fails_first 1) "Together" 5 5)))
     - List.length Demo.task
     = 2 * transport_calls
             (trace (snd (Demo.call (Demo.fails_first 1) "Together" 5 5))) - 1)%nat.
Proof.
  apply (success_appends_two_per_failure_plus_one
           Demo.service false (Demo.fails_first 1) "key" "m" "Together" 5 5
           "Fix it." Demo.task 0%nat
           ("code"%string, "model"%string,
            conversation (snd (Demo.call (Demo.fails_first 1) "Together" 5 5)))).
  vm_compute. reflexivity.
Defined.

(** The turns of that run: assistant-fail, user-correction,
    assistant-success. *)
Example one_failure_then_success_turns :
  map role (conversation (snd (Demo.call (Demo.fails_first 1) "Together" 5 5)))
  = map role Demo.task ++ ["assistant"; "user"; "assistant"]%string.
Proof. vm_compute. reflexivity. Qed.

Lemma tolerant_flag_from_primary_limit_witness :
  nth_error (extraction_calls
               (trace (snd (Demo.call Demo.always_fails "Together" 2 1)))) 2
  = Some ("reply"%string, true, Raise (Exception "e2")) /\
  true = (Z.of_nat 2 >=? 2).
Proof.
  split; [vm_compute; reflexivity |].
  apply (tolerant_flag_from_primary_limit
           Demo.service false Demo.always_fails "key" "m" "Together" 2 1
           "Fix it." Demo.task 0%nat 2%nat "reply" true
           (Raise (Exception "e2"))).
  vm_compute. reflexivity.
Defined.

(** With limits 2 and 1: attempts 0 and 1 strict, attempt 2 tolerant. *)
Example tolerant_flags_two_plus_one :
  map call_flag (extraction_calls
                   (trace (snd (Demo.call Demo.always_fails "Together" 2 1))))
  = [false; false; true].
Proof. vm_compute. reflexivity. Qed.

(** C5 as stated fails: with limits 0 and 0 the unsupported value "Foo" is
    never looked at, and the call raises the exhaustion error, not the
    configuration error. *)
Lemma unknown_provider_with_zero_budget_is_exhaustion :
  AIProviders.is_value "Foo" = false /\
  Demo.call Demo.always_fails "Foo" 0 0
  = (Raise (exhaustion_error "m" 0 []), entry Demo.task 0%nat) /\
  fst (Demo.call Demo.always_fails "Foo" 0 0)
  <> Raise (unsupported_provider_error "Foo").
Proof.
  vm_compute. split; [reflexivity |]. split; [reflexivity |].
  discriminate.
Qed.

Lemma unknown_provider_fails_at_once_witness :
  0 < 5 + 5 /\
  AIProviders.is_value "Foo" = false /\
  Demo.call Demo.always_fails "Foo" 5 5
  = (Raise (unsupported_provider_error "Foo"), entry Demo.task 0%nat).
Proof.
  split; [lia |]. split; [vm_compute; reflexivity |].
  apply (unknown_provider_fails_at_once
           Demo.service false Demo.always_fails "key" "m" "Foo" 5 5
           "Fix it." Demo.task 0%nat).
  - lia.
  - vm_compute. reflexivity.
Defined.

Lemma transport_error_propagates_witness :
  fst (Demo.call_with (Demo.service_down_after 1) Demo.always_fails "Together" 5 5)
  = Raise (Exception "Together API connection failed: timeout") /\
  conversation
    (snd (Demo.call_with (Demo.service_down_after 1) Demo.always_fails
            "Together" 5 5))
  = Demo.task ++ failed_attempt_turns "Fix it." ("reply", "e0")%string /\
  error_history
    (snd (Demo.call_with (Demo.service_down_after 1) Demo.always_fails
            "Together" 5 5))
  = ["e0"]%string.
Proof.
  destruct (transport_error_propagates
              (Demo.service_down_after 1) false Demo.always_fails
              "key" "m" "Together" 5 5 "Fix it." Demo.task 0%nat
              [EvTogether Demo.task "key" "m" (Return "reply"%string);
               EvExtract "reply" false (Raise (Exception "e0"))]
              (Demo.task ++ failed_attempt_turns "Fix it." ("reply", "e0")%string)
              "key" "m"
              (Exception "Together API connection failed: timeout")
              [])
    as (_ & Hr & Hc & Hh).
  - vm_compute. reflexivity.
  - split; [exact Hr |]. split; [exact Hc | exact Hh].
Defined.

Lemma at_most_budget_calls_and_first_success_returns_witness :
  Z.of_nat (transport_calls
              (trace (snd (Demo.call (Demo.fails_first 1) "Together" 5 5))))
  <= 5 + 5 /\
  fst (Demo.call (Demo.fails_first 1) "Together" 5 5)
  = Return ("code"%string, "model"%string,
            conversation (snd (Demo.call (Demo.fails_first 1) "Together" 5 5))).
Proof.
  destruct (at_most_budget_calls_and_first_success_returns
              Demo.service false (Demo.fails_first 1) "key" "m" "Together" 5 5
              "Fix it." Demo.task 0%nat) as [Hcalls Hfirst].
  split.
  - apply Hcalls. lia.
  - apply (Hfirst
             (removelast
                (trace (snd (Demo.call (Demo.fails_first 1) "Together" 5 5))))
             "reply"%string false "code"%string "model"%string []).
    vm_compute. reflexivity.
Defined.

Lemma zero_budget_is_exhausted_at_once_witness :
  0 + 0 = 0 /\
  Demo.call Demo.always_fails "Foo" 0 0
  = (Raise (exhaustion_error "m" 0 []), entry Demo.task 0%nat).
Proof.
  split; [reflexivity |].
  apply (zero_budget_is_exhausted_at_once
           Demo.service false Demo.always_fails "key" "m" "Foo" 0 0
           "Fix it." Demo.task 0%nat).
  reflexivity.
Defined.

(** C10 as stated fails: when the extraction function raises [SystemExit]
    the loop does not catch it: the run ends with that exception after one
    attempt out of ten, with no entry in the error history and no corrective
    turn. *)
Lemma system_exit_is_not_caught :
  extraction_calls (trace (snd (Demo.call Demo.exits "Together" 5 5)))
  = [("reply"%string, false, Raise (SystemExit "0"))] /\
  fst (Demo.call Demo.exits "Together" 5 5) = Raise (SystemExit "0") /\
  error_history (snd (Demo.call Demo.exits "Together" 5 5)) = [] /\
  conversation (snd (Demo.call Demo.exits "Together" 5 5))
  = Demo.task ++ [assistant_turn "reply"] /\
  transport_calls (trace (snd (Demo.call Demo.exits "Together" 5 5))) = 1%nat.
Proof. vm_compute. repeat split; reflexivity. Qed.

Lemma caught_exception_is_retried_witness :
  for_range Demo.service false Demo.always_fails "key" "m" "Together" 2 "Fix it."
            [0; 1] (entry Demo.task 0%nat)
  = for_range Demo.service false Demo.always_fails "key" "m" "Together" 2 "Fix it."
      [1]
      {| conversation :=
           Demo.task
           ++ [assistant_turn "reply";
               user_turn (new_message "Fix it." "e0")];
         error_history := ["e0"%string];
         world := 1%nat;
         stdout := [];
         trace :=
           [EvTogether Demo.task "key" "m" (Return "reply"%string);
            EvExtract "reply" false (Raise (Exception "e0"))] |}.
Proof.
  apply (caught_exception_is_retried
           Demo.service false Demo.always_fails "key" "m" "Together" 2 "Fix it."
           0 [1] (entry Demo.task 0%nat) "reply"
           (snd (generate_response_with_together
                   Demo.service Demo.task "key" "m" (entry Demo.task 0%nat)))
           (Exception "e0") 1%nat).
  - vm_compute. reflexivity.
  - vm_compute. reflexivity.
  - vm_compute. reflexivity.
  - vm_compute. reflexivity.
Defined.

(** ** The model tables and the select boxes *)

Lemma dict_get_of_key (d : list (string * string)) (x : string) :
  In x (Py.dict_keys d) -> exists v, Py.dict_get x d = Some v.
Proof.
  induction d as [| [k v] d IH]; simpl; [contradiction |].
  intros [-> | H].
  - rewrite String.eqb_refl. eexists. reflexivity.
  - destruct (String.eqb x k); [eexists; reflexivity | exact (IH H)].
Qed.

Lemma split_pieces_have_no_separator (sep : ascii) (s : string) :
  Forall (fun piece => Py.contains sep piece = false) (Py.split sep s).
Proof.
  induction s as [| c s IH]; simpl.
  - repeat constructor.
  - destruct (Ascii.eqb c sep) eqn:Ec.
    + constructor; [reflexivity | exact IH].
    + rewrite Ascii.eqb_sym in Ec.
      destruct (Py.split sep s) as [| piece pieces].
      * repeat constructor. simpl. now rewrite Ec.
      * inversion IH as [| ? ? Hp Hps]; subst.
        constructor; [simpl; now rewrite Ec, Hp | exact Hps].
Qed.

Lemma last_keeps (A : Type) (P : A -> Prop) (l : list A) (d : A) :
  Forall P l -> P d -> P (List.last l d).
Proof.
  induction 1 as [| a l Ha Hl IH]; intros Hd; simpl; [exact Hd |].
  destruct l; [exact Ha | exact (IH Hd)].
Qed.

(** X17: Every member of [AIProviders] has a default model and a help text, and
    its default model is the first of the options the select box offers for
    it. *)
Theorem every_provider_has_its_defaults (p : AIProviders.t) :
  exists model help,
    Py.dict_get (AIProviders.value p) AI_MODEL_DEFAULTS = Some model /\
    Py.dict_get (AIProviders.value p) AI_HELP_DEFAULTS = Some help /\
    hd_error (model_options (AIProviders.value p)) = Some model.
Proof.
  destruct p; eexists; eexists; repeat split; reflexivity.
Qed.

(** X18: For every model a select box offers, its [format_func] finds the
    description (no [KeyError]); the label of a Together model starts with
    the part of its name after the last slash. *)
Theorem labels_of_offered_models (ai_provider x : string) :
  In x (model_options ai_provider) ->
  if String.eqb ai_provider (AIProviders.value AIProviders.TOGETHER)
  then exists name description,
         together_format_func x
         = Some (name ++ " - " ++ description)%string /\
         Py.contains "/"%char name = false /\
         Py.dict_get x TOGETHER_MODELS = Some description
  else exists description,
         ollama_format_func x = Some (x ++ " - " ++ description)%string /\
         Py.dict_get x OLLAMA_MODELS = Some description.
Proof.
  unfold model_options, together_format_func, ollama_format_func.
  destruct (String.eqb ai_provider (AIProviders.value AIProviders.TOGETHER));
    intros Hx; destruct (dict_get_of_key _ _ Hx) as [description ->].
  - exists (List.last (Py.split "/"%char x) EmptyString), description.
    repeat split.
    apply (last_keeps _ (fun piece => Py.contains "/"%char piece = false)).
    + apply split_pieces_have_no_separator.
    + reflexivity.
  - exists description. split; reflexivity.
Qed.

Lemma labels_of_offered_models_witness :
  exists name description,
    together_format_func "mistralai/Mixtral-8x7B-Instruct-v0.1"
    = Some (name ++ " - " ++ description)%string /\
    Py.contains "/"%char name = false /\
    Py.dict_get "mistralai/Mixtral-8x7B-Instruct-v0.1" TOGETHER_MODELS
    = Some description.
Proof.
  apply (labels_of_offered_models "Together"
           "mistralai/Mixtral-8x7B-Instruct-v0.1").
  vm_compute. auto.
Defined.

(** The label of that model. *)
Example mixtral_label :
  together_format_func "mistralai/Mixtral-8x7B-Instruct-v0.1"
  = Some "Mixtral-8x7B-Instruct-v0.1 - Mixtral 8x7B"%string.
Proof. vm_compute. reflexivity. Qed.

(** ** Further properties on concrete runs *)

Lemma together_errors_are_connection_errors_witness :
  String.prefix "Together API connection failed: "
    (exn_str (Exception "Together API connection failed: timeout")) = true.
Proof.
  apply (together_errors_are_connection_errors
           (T := string) (Demo.service_down_after 0) Demo.task "key" "m"
           (entry Demo.task 0%nat)
           (Exception "Together API connection failed: timeout")
           (snd (generate_response_with_together
                   (Demo.service_down_after 0) Demo.task "key" "m"
                   (entry Demo.task 0%nat)))).
  - vm_compute. reflexivity.
  - vm_compute. reflexivity.
Defined.

Lemma only_together_is_dispatched_witness :
  Demo.call Demo.always_fails "Ollama" 5 5
  = (Raise (unsupported_provider_error "Ollama"), entry Demo.task 0%nat).
Proof.
  apply (only_together_is_dispatched
           Demo.service false Demo.always_fails "key" "m" "Ollama" 5 5
           "Fix it." Demo.task 0%nat).
  - lia.
  - vm_compute. discriminate.
Defined.

Lemma first_call_sends_the_given_conversation_witness :
  exists out rest,
    trace (snd (Demo.call Demo.always_fails "Together" 2 1))
    = EvTogether Demo.task "key" "m" out :: rest.
Proof.
  apply (first_call_sends_the_given_conversation
           Demo.service false Demo.always_fails "key" "m" "Together" 2 1
           "Fix it." Demo.task 0%nat).
  - vm_compute. reflexivity.
  - lia.
Defined.

(** The third transport call of a run whose first two attempts failed gets
    the task followed by both failed attempts. *)
Lemma each_call_sends_the_whole_history_witness :
  exists fails : list (string * string),
    Demo.task
    ++ failed_attempt_turns "Fix it." ("reply", "e0")%string
    ++ failed_attempt_turns "Fix it." ("reply", "e1")%string
    = Demo.task ++ flat_map (failed_attempt_turns "Fix it.") fails /\
    List.length fails = 2%nat /\
    map snd fails = ["e0"; "e1"]%string.
Proof.
  destruct (each_call_sends_the_whole_history
              Demo.service false Demo.always_fails "key" "m" "Together" 2 1
              "Fix it." Demo.task 0%nat
              (firstn 4 (trace (snd (Demo.call Demo.always_fails "Together" 2 1))))
              (Demo.task
               ++ failed_attempt_turns "Fix it." ("reply", "e0")%string
               ++ failed_attempt_turns "Fix it." ("reply", "e1")%string)
              "key" "m" (Return "reply"%string)
              (skipn 5 (trace (snd (Demo.call Demo.always_fails "Together" 2 1)))))
    as (_ & _ & fails & Hm & Hn & Hd).
  - vm_compute. reflexivity.
  - exists fails. split; [exact Hm |]. split; [exact Hn | exact Hd].
Defined.

Lemma extraction_gets_the_latest_response_witness :
  exists pre' messages,
    firstn 3 (trace (snd (Demo.call Demo.always_fails "Together" 2 1)))
    = pre' ++ [EvTogether messages "key" "m" (Return "reply"%string)].
Proof.
  apply (extraction_gets_the_latest_response
           Demo.service false Demo.always_fails "key" "m" "Together" 2 1
           "Fix it." Demo.task 0%nat
           (firstn 3 (trace (snd (Demo.call Demo.always_fails "Together" 2 1))))
           "reply" false (Raise (Exception "e1"))
           (skipn 4 (trace (snd (Demo.call Demo.always_fails "Together" 2 1))))).
  vm_compute. reflexivity.
Defined.


Lemma uncaught_exception_ends_the_run_witness :
  fst (Demo.call Demo.exits "Together" 5 5) = Raise (SystemExit "0") /\
  (exists before,
     conversation (snd (Demo.call Demo.exits "Together" 5 5))
     = before ++ [assistant_turn "reply"]) /\
  error_history (snd (Demo.call Demo.exits "Together" 5 5)) = [].
Proof.
  destruct (uncaught_exception_ends_the_run
              Demo.service false Demo.exits "key" "m" "Together" 5 5
              "Fix it." Demo.task 0%nat
              [EvTogether Demo.task "key" "m" (Return "reply"%string)]
              "reply" false (SystemExit "0") [])
    as (_ & Hr & Hc & Hh).
  - vm_compute. reflexivity.
  - vm_compute. reflexivity.
  - split; [exact Hr |]. split; [exact Hc | exact Hh].
Defined.

Lemma nonpositive_budget_is_exhausted_at_once_witness :
  Demo.call Demo.always_fails "Together" (-3) 1
  = (Raise (exhaustion_error "m" (-3) []), entry Demo.task 0%nat).
Proof.
  apply (nonpositive_budget_is_exhausted_at_once
           Demo.service false Demo.always_fails "key" "m" "Together" (-3) 1
           "Fix it." Demo.task 0%nat).
  lia.
Defined.

(** The two printed lines of a run with prints on that fails twice. *)
Example lines_of_two_failures :
  stdout (snd (generate_result_with_error_handling
                 Demo.service true Demo.always_fails "key" "m" "Together" 2 0
                 "Fix it." (entry Demo.task 0%nat)))
  = ["Error detected in iteration 1"; "Error detected in iteration 2"]%string.
Proof. vm_compute. reflexivity. Qed.

(** The line of [print_conversation] for a message with a line break in its
    content: the break shows as an escape, on one line. *)
Example line_of_a_two_line_message :
  message_line 3 (user_turn (String "a" (String Py.LF "b")))
  = String Py.TAB "3: {'role': 'user', 'content': 'a\nb'}".
Proof. vm_compute. reflexivity. Qed.
